(** * svg2pbm: the PBM codec of [SVG2pbm], embedded and verified

    The development follows [svg2pbm/svg2pbm.py].  The first module gives
    the Python built-ins the codec relies on (exceptions, slices, [range],
    [str.split], [int], the [08b] format, ASCII/UTF-8 coding); the second
    one embeds the methods of class [SVG2pbm] that make up the codec:
    [loadpbm], [bin2ascii], [ascii2bin], [img2pbm_ascii], [write_pbm] and
    the writing half of [convert].  The theorems come last.

    Conventions of the embedding:
    - a Python [str] is a [list ascii] (code points 0..255), a [bytes] or
      [bytearray] value is a [list byte], a Python [int] is a [Z];
    - a call that may raise returns a [result], threaded with [x <- e ;; k];
    - a file opened for reading is the list of bytes still to be read, a
      file opened for writing is the list of bytes written so far. *)

From Stdlib Require Import Ascii String List ZArith NArith Lia Bool.
From Stdlib Require Import Strings.Byte.
From Stdlib Require Import DecimalString DecimalPos.
Import ListNotations.

Local Open Scope Z_scope.

(* ================================================================= *)
(** ** Python built-ins *)

Module Py.

Definition str := list ascii.
Definition bytes := list byte.

(** String literals of the source. *)
Definition lit (s : string) : str := list_ascii_of_string s.

Definition NL : ascii := "010"%char.
Definition SP : ascii := " "%char.

(** The exceptions the codec can raise.  [PyException msg] is the plain
    [Exception(msg)] of [loadpbm]. *)
Inductive exn : Type :=
| ValueError
| TypeError
| UnicodeDecodeError
| PyException (msg : str).

Inductive result (A : Type) : Type :=
| Ok (a : A)
| Raise (e : exn).
Arguments Ok {A} a.
Arguments Raise {A} e.

Definition bind {A B} (r : result A) (k : A -> result B) : result B :=
  match r with
  | Ok a => k a
  | Raise e => Raise e
  end.

Notation "x <- e ;; k" := (bind e (fun x => k))
  (at level 61, e at next level, right associativity).

Definition len {A} (l : list A) : Z := Z.of_nat (length l).

(** [l[lo:hi]]: a negative bound counts from the end, and both bounds are
    clamped to [0 .. len l]. *)
Definition norm_index (n i : Z) : Z :=
  if i <? 0 then Z.max 0 (i + n) else Z.min i n.

Definition slice {A} (l : list A) (lo hi : Z) : list A :=
  let a := norm_index (len l) lo in
  let b := norm_index (len l) hi in
  skipn (Z.to_nat a) (firstn (Z.to_nat b) l).

(** [range(start, stop, step)], as the list it iterates over. *)
Definition range (start stop step : Z) : result (list Z) :=
  if step =? 0 then Raise ValueError
  else
    let count :=
      if 0 <? step then (stop - start + step - 1) / step
      else (start - stop - step - 1) / (- step) in
    Ok (map (fun i => start + Z.of_nat i * step) (seq 0 (Z.to_nat count))).

Definition str_eqb (a b : str) : bool :=
  if list_eq_dec ascii_dec a b then true else false.

(** [s.split(sep)] for a one-character separator: every occurrence
    separates, so the result is never empty. *)
Fixpoint split (s : str) (sep : ascii) : list str :=
  match s with
  | [] => [[]]
  | c :: r =>
      if Ascii.eqb c sep then [] :: split r sep
      else match split r sep with
           | f :: fs => (c :: f) :: fs
           | [] => [[c]]
           end
  end.

(** ["".join(parts)]. *)
Definition join (parts : list str) : str := concat parts.

(** [b.decode('ascii')]. *)
Fixpoint decode_ascii (b : bytes) : result str :=
  match b with
  | [] => Ok []
  | x :: r =>
      if (Byte.to_N x <? 128)%N
      then s <- decode_ascii r ;; Ok (ascii_of_byte x :: s)
      else Raise UnicodeDecodeError
  end.

(** [str.encode(s)], UTF-8, on the code points below 256. *)
Definition encode_char (c : ascii) : bytes :=
  let n := N_of_ascii c in
  if (n <? 128)%N then [byte_of_ascii c]
  else [byte_of_ascii (ascii_of_N (192 + n / 64));
        byte_of_ascii (ascii_of_N (128 + n mod 64))].

Definition encode (s : str) : bytes := flat_map encode_char s.

(** [f.readline()] on a binary file: the bytes up to and including the
    first newline (or to the end), and the rest of the file. *)
Fixpoint readline (f : bytes) : bytes * bytes :=
  match f with
  | [] => ([], [])
  | x :: r =>
      if Byte.eqb x "010"%byte then ([x], r)
      else let '(l, r') := readline r in (x :: l, r')
  end.

(** *** [int(s)] and [int(s, 2)]

    After CPython's [PyLong_FromUnicodeObject] and [PyLong_FromString],
    on a string of code points below 256: blanks around the literal, one
    optional sign, for base 2 an optional [0b] prefix (with one
    underscore after it), then digits with single underscores between
    them.  The blanks are the ASCII ones (codes 9 to 13 and 32) and the
    two Unicode blanks of this range, U+0085 and U+00A0; the only digits
    of this range are the ASCII ones.  The limit on the number of decimal
    digits is not modelled. *)

Definition is_space (c : ascii) : bool :=
  let n := N_of_ascii c in
  ((9 <=? n) && (n <=? 13) || (n =? 32) || (n =? 133) || (n =? 160))%N.

Definition digit_value (c : ascii) : Z :=
  let n := Z.of_N (N_of_ascii c) in
  if (48 <=? n) && (n <=? 57) then n - 48
  else if (97 <=? n) && (n <=? 122) then n - 87
  else if (65 <=? n) && (n <=? 90) then n - 55
  else 37.

Fixpoint skip_spaces (s : str) : str :=
  match s with
  | c :: r => if is_space c then skip_spaces r else s
  | [] => []
  end.

(** The digit scan: [prev_us] tells that the previous character was an
    underscore; the result is the value read, the number of digits and
    the unread rest. *)
Fixpoint scan_digits (base : Z) (s : str) (prev_us : bool) (acc : Z)
         (ndigits : nat) : option (Z * nat * str) :=
  match s with
  | [] => if prev_us then None else Some (acc, ndigits, [])
  | c :: r =>
      if Ascii.eqb c "_"
      then (if prev_us then None else scan_digits base r true acc ndigits)
      else if digit_value c <? base
      then scan_digits base r false (acc * base + digit_value c) (S ndigits)
      else if prev_us then None else Some (acc, ndigits, s)
  end.

Definition strip_sign (s : str) : Z * str :=
  match s with
  | c :: r =>
      if Ascii.eqb c "+" then (1, r)
      else if Ascii.eqb c "-" then (-1, r)
      else (1, s)
  | [] => (1, s)
  end.

Definition strip_prefix (base : Z) (s : str) : str :=
  match s with
  | z :: b :: r =>
      if (base =? 2) && Ascii.eqb z "0"
         && (Ascii.eqb b "b" || Ascii.eqb b "B")
      then match r with
           | u :: r' => if Ascii.eqb u "_" then r' else r
           | [] => r
           end
      else s
  | _ => s
  end.

Definition int (s : str) (base : Z) : result Z :=
  let '(sign, s) := strip_sign (skip_spaces s) in
  let s := strip_prefix base s in
  match s with
  | c :: _ =>
      if Ascii.eqb c "_" then Raise ValueError
      else match scan_digits base s false 0 0 with
           | Some (v, S _, rest) =>
               match skip_spaces rest with
               | [] => Ok (sign * v)
               | _ :: _ => Raise ValueError
               end
           | _ => Raise ValueError
           end
  | [] => Raise ValueError
  end.

(** [str(n)] and [f"{n}"] for an [int]: the decimal numeral, with a minus
    sign for a negative number. *)
Definition str_of_int (n : Z) : str :=
  list_ascii_of_string (NilEmpty.string_of_int (Z.to_int n)).

(** [f'{x:08b}'] for a byte: its eight bits, the most significant first. *)
Definition bit_char (b : bool) : ascii := if b then "1"%char else "0"%char.

Definition format_08b (x : byte) : str :=
  let n := Byte.to_N x in
  map (fun i => bit_char (N.testbit n i)) [7; 6; 5; 4; 3; 2; 1; 0]%N.

(** [f'{0:0{k}b}']: the number zero in binary, padded with zeros to [k]
    characters, hence at least one. *)
Definition format_zero (k : Z) : str :=
  repeat "0"%char (Z.to_nat (Z.max 1 k)).

(** [binbuffer.append(v)]: a [bytearray] takes the integers 0..255. *)
Definition bytearray_append (binbuffer : bytes) (v : Z) : result bytes :=
  if (0 <=? v) && (v <? 256)
  then match Byte.of_N (Z.to_N v) with
       | Some x => Ok (binbuffer ++ [x])
       | None => Raise ValueError
       end
  else Raise ValueError.

End Py.

Import Py.
(* ================================================================= *)
(** ** The codec of class [SVG2pbm] *)

Module SVG2pbm.

(** What [loadpbm] returns: [mode, data, int(w), int(h)]. *)
Definition loaded : Type := str * str * Z * Z.

(** [bin2ascii(bytebuffer, width)].  The first loop visits every index of
    [bytebuffer] in order, so it is a fold over its elements. *)
Definition bin2ascii (bytebuffer : bytes) (width : Z) : result str :=
  let buffer := [] in
  let refiller := 8 - width mod 8 in
  let buffer :=
    fold_left (fun buffer x => buffer ++ format_08b x) bytebuffer buffer in
  let asciibuffer := [] in
  cols <- range 0 (len buffer) (width + refiller) ;;
  Ok (fold_left
        (fun asciibuffer col => asciibuffer ++ slice buffer col (col + width))
        cols asciibuffer).

(** The [while True] loop of [ascii2bin], with its state [cnt] and
    [binbuffer].  Every round moves [cnt] forward by 8, so the loop ends
    within [len rbuffer + 1] rounds, which is the fuel [ascii2bin] gives
    it ([pack_loop_chunks] below: with that much fuel the loop runs to
    its [break], and more fuel changes nothing). *)
Fixpoint pack_loop (fuel : nat) (rbuffer : str) (cnt : Z) (binbuffer : bytes)
  : result bytes :=
  match fuel with
  | O => Ok binbuffer
  | S fuel' =>
      if len rbuffer <=? cnt then Ok binbuffer
      else
        let byte := slice rbuffer cnt (cnt + 8) in
        v <- int byte 2 ;;
        binbuffer <- bytearray_append binbuffer v ;;
        pack_loop fuel' rbuffer (cnt + 8) binbuffer
  end.

(** [ascii2bin(asciibuffer, width)]. *)
Definition ascii2bin (asciibuffer : str) (width : Z) : result bytes :=
  let refiller := 8 - width mod 8 in
  let rbuffer := [] in
  cols <- range 0 (len asciibuffer) width ;;
  let rbuffer :=
    fold_left
      (fun rbuffer col =>
         rbuffer ++ (slice asciibuffer col (col + width) ++ format_zero refiller))
      cols rbuffer in
  pack_loop (S (length rbuffer)) rbuffer 0 [].

(** [img2pbm_ascii(imgbuffer, width)]: one bit per RGB pixel, from its
    first channel. *)
Definition img2pbm_ascii (imgbuffer : bytes) (width : Z) : result str :=
  cols <- range 0 (len imgbuffer) 3 ;;
  Ok (fold_left
        (fun buffer index =>
           let bit :=
             if (1 <? Byte.to_N (nth (Z.to_nat index) imgbuffer x00))%N
             then 0 else 1 in
           buffer ++ str_of_int bit)
        cols []).

(** [loadpbm(filename)], on the contents of the file. *)
Definition loadpbm (filename : str) (contents : bytes) : result loaded :=
  let f := contents in
  let '(line, f) := readline f in
  mode <- decode_ascii (slice line 0 (-1)) ;;
  let '(_, f) := readline f in
  let '(line, f) := readline f in
  let dim := slice line 0 (-1) in
  dim <- decode_ascii dim ;;
  match split dim SP with
  | [w; h] =>
      let data := f in
      data <-
        (if str_eqb mode (lit "P1") then
           data <- decode_ascii data ;;
           Ok (join (split data NL))
         else if str_eqb mode (lit "P4") then
           width <- int w 10 ;;
           bin2ascii data width
         else
           Raise (PyException (lit "unknown format from file " ++ filename))) ;;
      width <- int w 10 ;;
      height <- int h 10 ;;
      Ok (mode, data, width, height)
  | _ => Raise ValueError
  end.

(** The [buffer] argument of [write_pbm] is a [str] in ascii mode and a
    [bytearray] in binary mode. *)
Inductive pybuffer : Type :=
| PyStr (s : str)
| PyBytes (b : bytes).

Definition buffer_len (buffer : pybuffer) : Z :=
  match buffer with
  | PyStr s => len s
  | PyBytes b => len b
  end.

(** [write_pbm(filenname, buffer, width, height, mode)]: the bytes written
    to the file, and how the call ends.  [f.write] of a [str] and the
    concatenation of a [bytearray] with a [str] raise [TypeError]. *)
Definition write_pbm (buffer : pybuffer) (width height : Z) (mode : str)
  : bytes * result unit :=
  let f := [] in
  let f := f ++ (if str_eqb mode (lit "ascii")
                 then encode (lit "P1" ++ [NL])
                 else encode (lit "P4" ++ [NL])) in
  let f := f ++ encode (lit "# Created by svg2pbm converter" ++ [NL]) in
  let f := f ++ encode (str_of_int width ++ lit " " ++ str_of_int height
                        ++ [NL]) in
  if str_eqb mode (lit "bin") then
    match buffer with
    | PyBytes b => (f ++ b, Ok tt)
    | PyStr _ => (f, Raise TypeError)
    end
  else
    let line_length := if 70 <=? width then 70 else width in
    match range 0 (buffer_len buffer) line_length with
    | Raise e => (f, Raise e)
    | Ok cols =>
        match buffer with
        | PyStr s =>
            (fold_left
               (fun f col =>
                  f ++ encode (slice s col (col + line_length) ++ [NL]))
               cols f,
             Ok tt)
        | PyBytes _ =>
            match cols with
            | [] => (f, Ok tt)
            | _ :: _ => (f, Raise TypeError)
            end
        end
    end.

(** The writing half of [convert]: from the bit-string [asciibuffer] that
    [img2pbm_ascii] returned to the file written, if any. *)
Definition convert_buffer (asciibuffer : str) (width height : Z) (mode : str)
  : result (option bytes) :=
  binbuffer <- ascii2bin asciibuffer width ;;
  if str_eqb mode (lit "ascii") then
    match write_pbm (PyStr asciibuffer) width height (lit "ascii") with
    | (f, Ok _) => Ok (Some f)
    | (_, Raise e) => Raise e
    end
  else if str_eqb mode (lit "bin") then
    match write_pbm (PyBytes binbuffer) width height (lit "bin") with
    | (f, Ok _) => Ok (Some f)
    | (_, Raise e) => Raise e
    end
  else Ok None.

(** [convert], from the data of the rasterised image ([img.GetData()]). *)
Definition convert (imgdata : bytes) (width height : Z) (mode : str)
  : result (option bytes) :=
  asciibuffer <- img2pbm_ascii imgdata width ;;
  convert_buffer asciibuffer width height mode.

End SVG2pbm.

Import SVG2pbm.

(* ================================================================= *)
(** ** The drivers: [convert] on a file, and [convert_dir]

    [convert] turns the file into the data of a monochrome image with
    [cairosvg] and [wx] before it calls the codec; this step is a
    parameter here, [rasterize], which gives [img.GetData()] for a file
    name and a target size, or raises. *)

Section Driver.

Variable rasterize : str -> Z -> Z -> result bytes.

(** [filename.split('.')[0]], the name [convert] passes to [write_pbm]. *)
Definition filename_out (filename : str) : str :=
  hd [] (split filename "."%char).

(** [filename.split('.')[-1] == "svg"], the test of [convert_dir]. *)
Definition is_svg (filename : str) : bool :=
  str_eqb (last (split filename "."%char) []) (lit "svg").

(** [convert(filename, width, height, mode)]: the name given to
    [write_pbm] and the bytes written, if a file is written. *)
Definition convert_file (filename : str) (width height : Z) (mode : str)
  : result (option (str * bytes)) :=
  let filename_out := filename_out filename in
  imgdata <- rasterize filename width height ;;
  written <- convert imgdata width height mode ;;
  Ok (option_map (fun f => (filename_out, f)) written).

(** [convert_dir(width, height, mode)] on the names [os.listdir] gives:
    the files written, in order, and how the call ends.  An exception
    ends the loop; the files written before it stay. *)
Fixpoint convert_dir (files : list str) (width height : Z) (mode : str)
  : list (str * bytes) * result unit :=
  match files with
  | [] => ([], Ok tt)
  | filename :: files' =>
      if is_svg filename then
        match convert_file filename width height mode with
        | Raise e => ([], Raise e)
        | Ok written =>
            let '(rest, r) := convert_dir files' width height mode in
            (match written with
             | Some w => w :: rest
             | None => rest
             end, r)
        end
      else convert_dir files' width height mode
  end.

End Driver.

(* ================================================================= *)
(** ** Vocabulary of the statements *)

(** A bit-string: a [str] over the characters [0] and [1]. *)
Definition is_bit (c : ascii) : Prop := c = "0"%char \/ c = "1"%char.
Definition bitstring (s : str) : Prop := Forall is_bit s.

(** The pieces a loop [for col in range(0, len(l), step)] cuts out of [l]
    when it takes [l[col+a : col+b]] in every round. *)
Definition pieces {A} (l : list A) (step a b : Z) : list (list A) :=
  match range 0 (len l) step with
  | Ok cols => map (fun col => slice l (col + a) (col + b)) cols
  | Raise _ => []
  end.

(** The padding bits of the rows of a binary body: what [bin2ascii] drops
    from every row, that is [buffer[col+width : col+width+refiller]]. *)
Definition row_paddings (bytebuffer : bytes) (width : Z) : list str :=
  let refiller := 8 - width mod 8 in
  pieces (flat_map format_08b bytebuffer) (width + refiller)
         width (width + refiller).

Definition zero_padded (bytebuffer : bytes) (width : Z) : Prop :=
  Forall (Forall (eq "0"%char)) (row_paddings bytebuffer width).

(** The first line of a file as [loadpbm] reads it, and the third one. *)
Definition first_line (contents : bytes) : bytes :=
  slice (fst (readline contents)) 0 (-1).

Definition second_line (contents : bytes) : bytes :=
  fst (readline (snd (readline contents))).

Definition third_line (contents : bytes) : bytes :=
  slice (fst (readline (snd (readline (snd (readline contents)))))) 0 (-1).

Definition body_of (contents : bytes) : bytes :=
  snd (readline (snd (readline (snd (readline contents))))).

(** The byte that one round of the [while] loop of [ascii2bin] appends for
    the chunk [byte] of [rbuffer]. *)
Definition chunk_byte (byte : str) : Byte.byte :=
  match int byte 2 with
  | Ok v => match Byte.of_N (Z.to_N v) with Some x => x | None => x00 end
  | Raise _ => x00
  end.

(** The [while] loop of [ascii2bin] told chunk by chunk. *)
Fixpoint pack_chunks (chunks : list str) (binbuffer : bytes) : result bytes :=
  match chunks with
  | [] => Ok binbuffer
  | byte :: chunks' =>
      v <- int byte 2 ;;
      binbuffer <- bytearray_append binbuffer v ;;
      pack_chunks chunks' binbuffer
  end.

(** The rest of a list after its full blocks, as one more piece. *)
Definition last_piece {A} (t : list A) : list (list A) :=
  match t with [] => [] | _ :: _ => [t] end.

(** A character of a header line: ASCII, and not the newline. *)
Definition plain_char (c : ascii) : Prop :=
  (N_of_ascii c < 128)%N /\ c <> NL.
Definition plain (s : str) : Prop := Forall plain_char s.

(** The characters of a decimal numeral. *)
Definition is_digit (c : ascii) : Prop := In c (lit "0123456789").
Definition numeral_char (c : ascii) : Prop := c = "-"%char \/ is_digit c.

(** The digits of an unsigned decimal numeral. *)
Definition uint_chars (d : Decimal.uint) : str :=
  list_ascii_of_string (NilEmpty.string_of_uint d).

(** The header [write_pbm] writes for a magic number and two dimensions. *)
Definition comment_line : str := lit "# Created by svg2pbm converter" ++ [NL].

Definition header (magic : str) (width height : Z) : bytes :=
  encode (magic ++ [NL]) ++ encode comment_line
  ++ encode (str_of_int width ++ lit " " ++ str_of_int height ++ [NL]).


(** The dimensions [loadpbm] reads from the third line. *)
Definition dimensions (contents : bytes) : result (Z * Z) :=
  dim <- decode_ascii (third_line contents) ;;
  match split dim SP with
  | [w; h] =>
      width <- int w 10 ;;
      height <- int h 10 ;;
      Ok (width, height)
  | _ => Raise ValueError
  end.

Definition bytes_eqb (a b : bytes) : bool :=
  if list_eq_dec Byte.byte_eq_dec a b then true else false.




(** The dimensions line of [write_pbm], without its newline. *)
Definition dimensions_line (width height : Z) : str :=
  str_of_int width ++ lit " " ++ str_of_int height.

(** The magic number [write_pbm] writes for a mode. *)
Definition magic_of (mode : str) : str :=
  if str_eqb mode (lit "ascii") then lit "P1" else lit "P4".

(** The bit [img2pbm_ascii] gives a pixel, from its first channel. *)
Definition pixel_bit (pixel : byte * byte * byte) : ascii :=
  let '(r, _, _) := pixel in
  if (1 <? Byte.to_N r)%N then "0"%char else "1"%char.

(** The data of an image, three bytes a pixel. *)
Definition image_data (pixels : list (byte * byte * byte)) : bytes :=
  flat_map (fun '(r, g, b) => [r; g; b]) pixels.

(** A character that [int(s, 2)] takes in no position: no bit, no blank
    (the ASCII blanks, U+0085 and U+00A0), no sign, no underscore and no
    letter of the prefix [0b]. *)
Definition foreign_char (c : ascii) : Prop :=
  is_space c = false /\ 2 <= digit_value c /\ ~ In c (lit "+-_bB").


(* ================================================================= *)
(** ** Slices, ranges and loops *)

Section Slices.
Context {A : Type}.
Implicit Types l pre : list A.

Lemma len_app l1 l2 : len (l1 ++ l2) = len l1 + len l2.
Proof. unfold len. rewrite length_app. lia. Qed.

Lemma len_nonneg l : 0 <= len l.
Proof. unfold len. lia. Qed.

Lemma slice_nonneg l a b :
  0 <= a -> 0 <= b ->
  slice l a b = skipn (Z.to_nat a) (firstn (Z.to_nat b) l).
Proof.
  intros Ha Hb. unfold slice, norm_index, len.
  destruct (Z.ltb_spec a 0); [lia|]. destruct (Z.ltb_spec b 0); [lia|].
  assert (Hf : firstn (Z.to_nat (Z.min b (Z.of_nat (length l)))) l
               = firstn (Z.to_nat b) l).
  { destruct (Z.le_ge_cases b (Z.of_nat (length l))) as [Hle|Hge].
    - rewrite Z.min_l by lia. reflexivity.
    - rewrite Z.min_r by lia. rewrite Nat2Z.id.
      rewrite firstn_all. symmetry. apply firstn_all2. lia. }
  rewrite Hf.
  destruct (Z.le_ge_cases a (Z.of_nat (length l))) as [Hle|Hge].
  - rewrite Z.min_l by lia. reflexivity.
  - rewrite Z.min_r by lia. rewrite Nat2Z.id.
    rewrite !skipn_all2; [reflexivity| |];
      rewrite length_firstn; lia.
Qed.

Lemma slice_shift pre l a b :
  0 <= a -> 0 <= b ->
  slice (pre ++ l) (len pre + a) (len pre + b) = slice l a b.
Proof.
  intros Ha Hb. pose proof (len_nonneg pre) as Hp.
  rewrite !slice_nonneg by lia. unfold len in *.
  replace (Z.to_nat (Z.of_nat (length pre) + b))
    with (length pre + Z.to_nat b)%nat by lia.
  replace (Z.to_nat (Z.of_nat (length pre) + a))
    with (length pre + Z.to_nat a)%nat by lia.
  rewrite firstn_app_2. rewrite skipn_app.
  rewrite skipn_all2 by lia. simpl.
  f_equal. lia.
Qed.

Lemma slice_block row l a b :
  0 <= a -> 0 <= b -> b <= len row ->
  slice (row ++ l) a b = skipn (Z.to_nat a) (firstn (Z.to_nat b) row).
Proof.
  intros Ha Hb Hle. rewrite slice_nonneg by lia.
  unfold len in Hle. rewrite firstn_app.
  replace (Z.to_nat b - length row)%nat with 0%nat by lia.
  simpl. rewrite app_nil_r. reflexivity.
Qed.

Lemma slice_all l b : len l <= b -> slice l 0 b = l.
Proof.
  intros H. pose proof (len_nonneg l). rewrite slice_nonneg by lia.
  change (Z.to_nat 0) with 0%nat. cbn [skipn].
  apply firstn_all2. unfold len in H. lia.
Qed.

Lemma slice_first_block row l : slice (row ++ l) 0 (len row) = row.
Proof.
  pose proof (len_nonneg row). rewrite slice_block by lia.
  change (Z.to_nat 0) with 0%nat. cbn [skipn].
  apply firstn_all2. unfold len. lia.
Qed.

Lemma slice_drop_last l x : slice (l ++ [x]) 0 (-1) = l.
Proof.
  unfold slice.
  assert (Ha : norm_index (len (l ++ [x])) 0 = 0).
  { unfold norm_index. rewrite Z.ltb_irrefl.
    pose proof (len_nonneg (l ++ [x])). lia. }
  assert (Hb : Z.to_nat (norm_index (len (l ++ [x])) (-1)) = (length l + 0)%nat).
  { unfold norm_index. change (-1 <? 0) with true. cbv iota.
    rewrite len_app. unfold len. simpl length. lia. }
  rewrite Ha, Hb. rewrite firstn_app_2. simpl. apply app_nil_r.
Qed.

End Slices.

Lemma range_nil stop step : 0 < step -> stop <= 0 -> range 0 stop step = Ok [].
Proof.
  intros Hs Hn. unfold range.
  destruct (Z.eqb_spec step 0); [lia|]. destruct (Z.ltb_spec 0 step); [|lia].
  assert ((stop - 0 + step - 1) / step <= 0).
  { apply Z.lt_succ_r. apply Z.div_lt_upper_bound; lia. }
  replace (Z.to_nat ((stop - 0 + step - 1) / step)) with 0%nat by lia.
  reflexivity.
Qed.

Lemma range_cons stop step :
  0 < step -> 0 < stop ->
  exists cols, range 0 (stop - step) step = Ok cols
            /\ range 0 stop step = Ok (0 :: map (fun c => step + c) cols).
Proof.
  intros Hs Hn. unfold range.
  destruct (Z.eqb_spec step 0); [lia|]. destruct (Z.ltb_spec 0 step); [|lia].
  eexists; split; [reflexivity|].
  replace (stop - 0 + step - 1) with ((stop - step - 0 + step - 1) + 1 * step)
    by lia.
  rewrite Z.div_add by lia.
  set (q := (stop - step - 0 + step - 1) / step).
  assert (0 <= q) by (apply Z.div_pos; lia).
  replace (Z.to_nat (q + 1)) with (S (Z.to_nat q)) by lia.
  simpl seq. simpl map. f_equal. f_equal.
  rewrite <- seq_shift, !map_map. apply map_ext. intros i. lia.
Qed.

Lemma range_ok stop step : step <> 0 -> exists cols, range 0 stop step = Ok cols.
Proof.
  intros Hs. unfold range. destruct (Z.eqb_spec step 0); [lia|]. eauto.
Qed.

(** A loop that only appends to its accumulator. *)
Lemma fold_append {A B} (g : B -> list A) (cols : list B) (acc : list A) :
  fold_left (fun acc col => acc ++ g col) cols acc = acc ++ flat_map g cols.
Proof.
  revert acc. induction cols as [|c cols IH]; intros acc; simpl.
  - now rewrite app_nil_r.
  - rewrite IH. now rewrite app_assoc.
Qed.

Lemma range_in_nonneg stop step cols c :
  0 < step -> range 0 stop step = Ok cols -> In c cols -> 0 <= c.
Proof.
  unfold range. intros Hs H Hin.
  destruct (Z.eqb_spec step 0); [lia|]. injection H as <-.
  apply in_map_iff in Hin. destruct Hin as (i & <- & _). nia.
Qed.

Section Pieces.
Context {A : Type}.
Implicit Types l row t : list A.

Lemma pieces_nil step a b : 0 < step -> pieces (@nil A) step a b = [].
Proof.
  intros Hs. unfold pieces. rewrite range_nil by (cbn; lia). reflexivity.
Qed.

Lemma pieces_short t step a b :
  0 < len t -> len t <= step ->
  pieces t step a b = [slice t a b].
Proof.
  intros Ht Hs. unfold pieces.
  destruct (range_cons (len t) step) as (cols & Hc & ->); [lia|lia|].
  rewrite range_nil in Hc by lia. injection Hc as <-. reflexivity.
Qed.

Lemma pieces_cons row l step a b :
  0 < step -> len row = step -> 0 <= a -> 0 <= b -> b <= step ->
  pieces (row ++ l) step a b
  = skipn (Z.to_nat a) (firstn (Z.to_nat b) row) :: pieces l step a b.
Proof.
  intros Hs Hr Ha Hb Hbs. unfold pieces.
  pose proof (len_nonneg l) as Hl.
  destruct (range_cons (len (row ++ l)) step) as (cols & Hc & ->);
    [lia|rewrite len_app; lia|].
  rewrite len_app in Hc. replace (len row + len l - step) with (len l) in Hc
    by lia.
  rewrite Hc. simpl map. f_equal.
  - apply slice_block; lia.
  - rewrite map_map. apply map_ext_in. intros c Hin.
    pose proof (range_in_nonneg _ _ _ _ Hs Hc Hin).
    replace (step + c + a) with (len row + (c + a)) by lia.
    replace (step + c + b) with (len row + (c + b)) by lia.
    apply slice_shift; lia.
Qed.

(** The loop over a list made of full blocks and a shorter rest. *)
Lemma pieces_blocks rows t step a b :
  0 < step -> 0 <= a -> 0 <= b -> b <= step ->
  Forall (fun row => len row = step) rows -> len t < step ->
  pieces (concat rows ++ t) step a b
  = map (fun row => skipn (Z.to_nat a) (firstn (Z.to_nat b) row)) rows
    ++ map (fun t => slice t a b) (last_piece t).
Proof.
  intros Hs Ha Hb Hbs Hrows Ht.
  induction Hrows as [|row rows Hrow Hrows IH]; simpl.
  - destruct t as [|x t]; [now apply pieces_nil|].
    apply pieces_short; [unfold len; simpl; lia|lia].
  - rewrite <- app_assoc. rewrite pieces_cons by assumption.
    now rewrite IH.
Qed.

(** Every list is made of full blocks and a shorter rest. *)
Lemma blocks_exist step l :
  0 < step ->
  exists rows t, l = concat rows ++ t
              /\ Forall (fun row => len row = step) rows /\ len t < step.
Proof.
  intros Hs.
  remember (length l) as n eqn:Hn. revert l Hn.
  induction n as [n IH] using lt_wf_ind. intros l Hn.
  destruct (Z_lt_le_dec (len l) step) as [Hlt|Hge].
  - exists [], l. repeat split; auto.
  - unfold len in Hge.
    destruct (IH (length (skipn (Z.to_nat step) l))) with (l := skipn (Z.to_nat step) l)
      as (rows & t & Heq & Hrows & Ht).
    + rewrite length_skipn. lia.
    + reflexivity.
    + exists (firstn (Z.to_nat step) l :: rows), t. repeat split; auto.
      * simpl. rewrite <- app_assoc, <- Heq. symmetry. apply firstn_skipn.
      * constructor; auto. unfold len. rewrite length_firstn. lia.
Qed.

Lemma len_concat_blocks rows step :
  Forall (fun row : list A => len row = step) rows ->
  len (concat rows) = Z.of_nat (length rows) * step.
Proof.
  induction 1 as [|row rows Hrow _ IH]; cbn [concat length].
  - reflexivity.
  - rewrite len_app, IH, Hrow, Nat2Z.inj_succ. lia.
Qed.

(** A list whose length is a multiple of [step] is made of full blocks. *)
Lemma blocks_exact step l :
  0 < step -> (len l) mod step = 0 ->
  exists rows, l = concat rows /\ Forall (fun row => len row = step) rows.
Proof.
  intros Hs Hm.
  destruct (blocks_exist step l Hs) as (rows & t & -> & Hrows & Ht).
  exists rows. split; auto.
  rewrite len_app, (len_concat_blocks _ _ Hrows) in Hm.
  rewrite Z.add_comm, Z_mod_plus_full in Hm.
  pose proof (len_nonneg t). rewrite Z.mod_small in Hm by lia.
  destruct t; [now rewrite app_nil_r|]. unfold len in Hm. simpl in Hm. lia.
Qed.

End Pieces.

(* ================================================================= *)
(** ** Bits and bytes *)

Ltac split_bits :=
  unfold bitstring in *;
  repeat match goal with
         | H : Forall is_bit (_ :: _) |- _ =>
             apply Forall_cons_iff in H; destruct H as [[-> | ->] H]
         end.

Ltac solve_bits :=
  repeat (constructor; [ (left; reflexivity) || (right; reflexivity) | ]);
  try constructor.

Lemma bitstring_app s t : bitstring (s ++ t) <-> bitstring s /\ bitstring t.
Proof. apply Forall_app. Qed.

Lemma bitstring_concat rows : bitstring (concat rows) <-> Forall bitstring rows.
Proof.
  induction rows as [|r rows IH]; simpl.
  - split; constructor.
  - rewrite bitstring_app, IH, Forall_cons_iff. tauto.
Qed.

Lemma bitstring_firstn n s : bitstring s -> bitstring (firstn n s).
Proof.
  intros H. rewrite <- (firstn_skipn n s) in H. now apply bitstring_app in H.
Qed.

Lemma bitstring_skipn n s : bitstring s -> bitstring (skipn n s).
Proof.
  intros H. rewrite <- (firstn_skipn n s) in H. now apply bitstring_app in H.
Qed.

Lemma bitstring_slice s a b : bitstring s -> bitstring (slice s a b).
Proof. intros H. unfold slice. now apply bitstring_skipn, bitstring_firstn. Qed.

Lemma bitstring_zero k : bitstring (format_zero k).
Proof.
  unfold format_zero. induction (Z.to_nat (Z.max 1 k)); simpl; constructor;
    auto. now left.
Qed.

Lemma bitstring_format_08b x : bitstring (format_08b x).
Proof.
  unfold format_08b. apply Forall_map, Forall_forall. intros i _.
  destruct (N.testbit _ i); [right|left]; reflexivity.
Qed.

Lemma len_format_08b x : len (format_08b x) = 8.
Proof. reflexivity. Qed.

Lemma len_format_zero k : 1 <= k -> len (format_zero k) = k.
Proof. intros H. unfold format_zero, len. rewrite repeat_length. lia. Qed.

(** One round of the [while] loop on a chunk of bits. *)
Lemma pack_chunk c acc :
  bitstring c -> (0 < length c <= 8)%nat ->
  (v <- int c 2 ;; bytearray_append acc v) = Ok (acc ++ [chunk_byte c]).
Proof.
  intros Hb Hl.
  do 9 (destruct c as [|? c];
        [ try (simpl in Hl; lia); split_bits; reflexivity | ]).
  simpl in Hl; lia.
Qed.

(** The byte of eight bits formats back to these bits. *)
Lemma format_chunk_byte c :
  bitstring c -> length c = 8%nat -> format_08b (chunk_byte c) = c.
Proof.
  intros Hb Hl.
  do 8 (destruct c as [|? c]; [discriminate Hl|]).
  destruct c; [|discriminate Hl].
  split_bits; reflexivity.
Qed.

(** A formatted byte is packed back to the byte. *)
Lemma chunk_byte_format x : chunk_byte (format_08b x) = x.
Proof. destruct x; reflexivity. Qed.

(* ================================================================= *)
(** ** The loops of [ascii2bin] and [bin2ascii] *)

Lemma length_last_piece {A} (t : list A) :
  (length (last_piece t) <= length t)%nat.
Proof. destruct t; simpl; lia. Qed.

(** With fuel for every chunk and for the last test, the [while] loop
    packs [rbuffer] chunk by chunk, starting from [cnt = len pre]. *)
Lemma pack_loop_chunks chunks t pre acc fuel :
  Forall (fun c => len c = 8) chunks -> len t < 8 ->
  (length (chunks ++ last_piece t) < fuel)%nat ->
  pack_loop fuel (pre ++ concat chunks ++ t) (len pre) acc
  = pack_chunks (chunks ++ last_piece t) acc.
Proof.
  intros Hc Ht. revert pre acc fuel.
  induction Hc as [|c chunks Hlen Hc IH]; intros pre acc fuel Hfuel.
  - cbn [concat app] in *.
    destruct fuel as [|fuel]; [lia|]. cbn [pack_loop].
    destruct t as [|x t].
    + rewrite app_nil_r, Z.leb_refl. reflexivity.
    + cbn [last_piece length] in Hfuel.
      rewrite len_app.
      destruct (Z.leb_spec (len pre + len (x :: t)) (len pre)) as [Hle|_].
      { unfold len in Hle. simpl in Hle. lia. }
      replace (slice (pre ++ x :: t) (len pre) (len pre + 8)) with (x :: t).
      2:{ rewrite <- (Z.add_0_r (len pre)) at 1.
          rewrite slice_shift, slice_all by lia. reflexivity. }
      cbn [last_piece pack_chunks].
      destruct (int (x :: t) 2) as [v|e]; [|reflexivity]. cbn [bind].
      destruct (bytearray_append acc v) as [acc'|e]; [|reflexivity].
      cbn [bind pack_chunks].
      destruct fuel as [|fuel]; [lia|]. cbn [pack_loop]. rewrite len_app.
      destruct (Z.leb_spec (len pre + len (x :: t)) (len pre + 8));
        [reflexivity|lia].
  - cbn [concat app length] in *.
    destruct fuel as [|fuel]; [lia|]. cbn [pack_loop].
    pose proof (len_nonneg (concat chunks ++ t)) as Hrest.
    rewrite <- app_assoc.
    destruct (Z.leb_spec (len (pre ++ c ++ concat chunks ++ t)) (len pre))
      as [Hle|_].
    { rewrite !len_app in Hle. rewrite len_app in Hrest. lia. }
    replace (slice (pre ++ c ++ concat chunks ++ t) (len pre) (len pre + 8))
      with c.
    2:{ rewrite <- (Z.add_0_r (len pre)) at 1.
        rewrite slice_shift, <- Hlen, slice_first_block by lia.
        reflexivity. }
    cbn [pack_chunks].
    destruct (int c 2) as [v|e]; [|reflexivity]. cbn [bind].
    destruct (bytearray_append acc v) as [acc'|e]; [|reflexivity].
    cbn [bind].
    replace (len pre + 8) with (len (pre ++ c)) by (rewrite len_app; lia).
    rewrite (app_assoc pre c). apply IH. lia.
Qed.

(** The whole loop, as [ascii2bin] starts it. *)
Lemma pack_loop_all rbuffer chunks t :
  rbuffer = concat chunks ++ t ->
  Forall (fun c => len c = 8) chunks -> len t < 8 ->
  pack_loop (S (length rbuffer)) rbuffer 0 []
  = pack_chunks (chunks ++ last_piece t) [].
Proof.
  intros -> Hc Ht.
  apply (pack_loop_chunks chunks t [] [] _ Hc Ht).
  rewrite !length_app.
  pose proof (length_last_piece t).
  assert (length chunks <= length (concat chunks))%nat; [|lia].
  clear Ht. induction Hc as [|c chunks Hlen _ IH]; simpl; [lia|].
  rewrite length_app. unfold len in Hlen. lia.
Qed.

(** Chunks of bits never make the loop raise. *)
Lemma pack_chunks_bits chunks acc :
  Forall (fun c => bitstring c /\ (0 < length c <= 8)%nat) chunks ->
  pack_chunks chunks acc = Ok (acc ++ map chunk_byte chunks).
Proof.
  intros H. revert acc.
  induction H as [|c chunks [Hb Hl] _ IH]; intros acc; simpl.
  - now rewrite app_nil_r.
  - pose proof (pack_chunk c acc Hb Hl) as Hp.
    destruct (int c 2) as [v|e]; [|discriminate Hp]. cbn [bind] in *.
    rewrite Hp. cbn [bind]. rewrite IH, <- app_assoc. reflexivity.
Qed.

(** The first loop of [bin2ascii]. *)
Lemma bits_of_bytes (bytebuffer : bytes) :
  fold_left (fun buffer x => buffer ++ format_08b x) bytebuffer []
  = flat_map format_08b bytebuffer.
Proof. apply (fold_append format_08b bytebuffer []). Qed.

Lemma bin2ascii_pieces bytebuffer width :
  0 <= width ->
  bin2ascii bytebuffer width
  = Ok (concat (pieces (flat_map format_08b bytebuffer)
                       (width + (8 - width mod 8)) 0 width)).
Proof.
  intros Hw. unfold bin2ascii, pieces. rewrite bits_of_bytes.
  pose proof (Z.mod_pos_bound width 8 ltac:(lia)) as Hm.
  destruct (range_ok (len (flat_map format_08b bytebuffer))
                     (width + (8 - width mod 8))) as (cols & ->); [lia|].
  cbn [bind]. rewrite fold_append. cbn [app]. rewrite flat_map_concat_map.
  do 2 f_equal. apply map_ext. intros c. now rewrite Z.add_0_r.
Qed.

Lemma ascii2bin_pieces asciibuffer width :
  0 < width ->
  ascii2bin asciibuffer width
  = let rbuffer :=
      flat_map (fun row => row ++ format_zero (8 - width mod 8))
               (pieces asciibuffer width 0 width) in
    pack_loop (S (length rbuffer)) rbuffer 0 [].
Proof.
  intros Hw. unfold ascii2bin, pieces.
  destruct (range_ok (len asciibuffer) width) as (cols & ->); [lia|].
  cbn [bind]. rewrite fold_append. cbn [app].
  rewrite !flat_map_concat_map, map_map.
  assert (Hc : map (fun col => slice asciibuffer col (col + width)
                              ++ format_zero (8 - width mod 8)) cols
               = map (fun x => slice asciibuffer (x + 0) (x + width)
                              ++ format_zero (8 - width mod 8)) cols).
  { apply map_ext. intros c. now rewrite Z.add_0_r. }
  rewrite Hc. reflexivity.
Qed.

Lemma firstn_block {A} (rows : list (list A)) n :
  Forall (fun row => len row = n) rows ->
  map (fun row => skipn (Z.to_nat 0) (firstn (Z.to_nat n) row)) rows = rows.
Proof.
  intros H. rewrite <- (map_id rows) at 2. apply map_ext_in. intros r Hin.
  rewrite Forall_forall in H. specialize (H r Hin).
  change (Z.to_nat 0) with 0%nat. cbn [skipn]. apply firstn_all2.
  unfold len in H. lia.
Qed.

(** [ascii2bin] on whole rows: every row is followed by its padding, and
    the padded rows are packed. *)
Lemma ascii2bin_rows rows width :
  0 < width -> Forall (fun row => len row = width) rows ->
  ascii2bin (concat rows) width
  = let rbuffer :=
      flat_map (fun row => row ++ format_zero (8 - width mod 8)) rows in
    pack_loop (S (length rbuffer)) rbuffer 0 [].
Proof.
  intros Hw Hrows. rewrite ascii2bin_pieces by assumption.
  rewrite <- (app_nil_r (concat rows)).
  rewrite pieces_blocks by first [assumption | unfold len; cbn [length]; lia].
  cbn [last_piece map]. rewrite app_nil_r, firstn_block by assumption.
  reflexivity.
Qed.

(** [bin2ascii] on a body whose bits are whole padded rows keeps the first
    [width] bits of every row. *)
Lemma bin2ascii_rows bytebuffer width prows :
  0 <= width ->
  flat_map format_08b bytebuffer = concat prows ->
  Forall (fun row => len row = width + (8 - width mod 8)) prows ->
  bin2ascii bytebuffer width
  = Ok (concat (map (firstn (Z.to_nat width)) prows)).
Proof.
  intros Hw Hbits Hrows. rewrite bin2ascii_pieces by assumption.
  pose proof (Z.mod_pos_bound width 8 ltac:(lia)) as Hm.
  rewrite Hbits, <- (app_nil_r (concat prows)).
  rewrite pieces_blocks with (t := [])
    by first [assumption | unfold len; cbn [length]; lia].
  cbn [last_piece map]. rewrite app_nil_r. reflexivity.
Qed.

Lemma flat_map_format_chunks chunks :
  Forall (fun c => bitstring c /\ length c = 8%nat) chunks ->
  flat_map format_08b (map chunk_byte chunks) = concat chunks.
Proof.
  induction 1 as [|c chunks [Hb Hl] _ IH]; cbn [map flat_map concat].
  - reflexivity.
  - rewrite IH, format_chunk_byte by assumption. reflexivity.
Qed.

(** Packing a bit-string of whole bytes, and formatting the bytes back. *)
Lemma pack_bits rbuffer :
  bitstring rbuffer -> (len rbuffer) mod 8 = 0 ->
  exists bs, pack_loop (S (length rbuffer)) rbuffer 0 [] = Ok bs
          /\ flat_map format_08b bs = rbuffer.
Proof.
  intros Hb Hm.
  destruct (blocks_exact 8 rbuffer ltac:(lia) Hm) as (chunks & -> & Hc).
  apply bitstring_concat in Hb.
  exists (map chunk_byte chunks). split.
  - rewrite (pack_loop_all _ chunks []);
      [|symmetry; apply app_nil_r|assumption|reflexivity].
    cbn [last_piece]. rewrite app_nil_r.
    apply (pack_chunks_bits chunks []).
    rewrite Forall_forall in *. intros c Hin. split; auto.
    specialize (Hc c Hin). unfold len in Hc. lia.
  - apply flat_map_format_chunks.
    rewrite Forall_forall in *. intros c Hin. split; auto.
    specialize (Hc c Hin). unfold len in Hc. lia.
Qed.

(** Packing any bit-string: the loop never raises. *)
Lemma pack_bits_total rbuffer :
  bitstring rbuffer ->
  exists bs, pack_loop (S (length rbuffer)) rbuffer 0 [] = Ok bs.
Proof.
  intros Hb.
  destruct (blocks_exist 8 rbuffer ltac:(lia)) as (chunks & t & -> & Hc & Ht).
  apply bitstring_app in Hb. destruct Hb as [Hb Hbt].
  apply bitstring_concat in Hb.
  exists (map chunk_byte (chunks ++ last_piece t)).
  rewrite (pack_loop_all _ chunks t) by auto.
  apply (pack_chunks_bits _ []).
  apply Forall_app. split.
  - rewrite Forall_forall in *. intros c Hin. split; auto.
    specialize (Hc c Hin). unfold len in Hc. lia.
  - destruct t as [|x t]; constructor; [|constructor]. split; auto.
    unfold len in Ht. simpl in *. lia.
Qed.

(** Packing the bits of a byte buffer gives the buffer back. *)
Lemma pack_format (bytebuffer : bytes) :
  let rbuffer := flat_map format_08b bytebuffer in
  pack_loop (S (length rbuffer)) rbuffer 0 [] = Ok bytebuffer.
Proof.
  cbv zeta.
  rewrite (pack_loop_all _ (map format_08b bytebuffer) []);
    [|rewrite app_nil_r; apply flat_map_concat_map
     |apply Forall_map, Forall_forall; reflexivity
     |reflexivity].
  cbn [last_piece]. rewrite app_nil_r.
  rewrite (pack_chunks_bits _ []).
  - cbn [app]. rewrite map_map. f_equal.
    rewrite <- (map_id bytebuffer) at 2. apply map_ext.
    apply chunk_byte_format.
  - apply Forall_map, Forall_forall. intros x _. split.
    + apply bitstring_format_08b.
    + cbn. lia.
Qed.

(* ================================================================= *)
(** ** Row repacking: [ascii2bin] and [bin2ascii] *)

Lemma width_padded width :
  width + (8 - width mod 8) = 8 * (width / 8 + 1).
Proof. pose proof (Z.div_mod width 8 ltac:(lia)). lia. Qed.

Lemma firstn_padded_rows (rows : list str) width pad :
  Forall (fun row => len row = width) rows ->
  map (firstn (Z.to_nat width)) (map (fun row => row ++ pad) rows) = rows.
Proof.
  intros H. rewrite map_map. rewrite <- (map_id rows) at 2.
  apply map_ext_in. intros r Hin.
  rewrite Forall_forall in H. specialize (H r Hin). unfold len in H.
  replace (Z.to_nat width) with (length r + 0)%nat by lia.
  rewrite firstn_app_2. simpl. apply app_nil_r.
Qed.

(** Packing rows of bits and unpacking them gives the rows back. *)
Lemma bin2ascii_ascii2bin s width :
  1 <= width -> bitstring s -> (len s) mod width = 0 ->
  exists b, ascii2bin s width = Ok b /\ bin2ascii b width = Ok s.
Proof.
  intros Hw Hb Hm.
  destruct (blocks_exact width s ltac:(lia) Hm) as (rows & -> & Hrows).
  rewrite ascii2bin_rows by (assumption || lia). cbv zeta.
  pose proof (Z.mod_pos_bound width 8 ltac:(lia)) as Hmod.
  set (pad := format_zero (8 - width mod 8)).
  set (prows := map (fun row => row ++ pad) rows).
  assert (Hflat : flat_map (fun row => row ++ pad) rows = concat prows)
    by apply flat_map_concat_map.
  assert (Hprows : Forall (fun row => len row = width + (8 - width mod 8))
                          prows).
  { apply Forall_map. rewrite Forall_forall in *. intros r Hin.
    rewrite len_app, (Hrows r Hin). unfold pad.
    rewrite len_format_zero by lia. reflexivity. }
  rewrite Hflat.
  destruct (pack_bits (concat prows)) as (bs & Hpack & Hbits).
  - apply bitstring_concat, Forall_map.
    apply bitstring_concat in Hb. rewrite Forall_forall in *.
    intros r Hin. apply bitstring_app. split; auto. apply bitstring_zero.
  - rewrite (len_concat_blocks _ _ Hprows), width_padded.
    rewrite Z.mul_assoc, (Z.mul_comm _ 8), <- Z.mul_assoc, Z.mul_comm.
    apply Z_mod_mult.
  - exists bs. split; [assumption|].
    rewrite (bin2ascii_rows bs width prows) by (assumption || lia).
    unfold prows. rewrite firstn_padded_rows by assumption. reflexivity.
Qed.

Lemma all_zero_repeat (l : str) :
  Forall (eq "0"%char) l -> l = repeat "0"%char (length l).
Proof. induction 1 as [|c l <- _ IH]; simpl; [|rewrite <- IH]; reflexivity. Qed.

(** Unpacking a binary body whose padding bits are zero and packing the
    rows again gives the body back. *)
Lemma ascii2bin_bin2ascii b width :
  1 <= width -> (len (flat_map format_08b b)) mod (width + (8 - width mod 8)) = 0 ->
  zero_padded b width ->
  exists s, bin2ascii b width = Ok s /\ ascii2bin s width = Ok b.
Proof.
  intros Hw Hm Hz.
  pose proof (Z.mod_pos_bound width 8 ltac:(lia)) as Hmod.
  set (step := width + (8 - width mod 8)) in *.
  destruct (blocks_exact step (flat_map format_08b b) ltac:(lia) Hm)
    as (brows & Hbits & Hbrows).
  exists (concat (map (firstn (Z.to_nat width)) brows)). split.
  - apply bin2ascii_rows; [lia|assumption|assumption].
  - rewrite ascii2bin_rows.
    2: lia.
    2:{ apply Forall_map. rewrite Forall_forall in *. intros r Hin.
        specialize (Hbrows r Hin). unfold len in *.
        rewrite length_firstn. lia. }
    cbv zeta.
    assert (Hpad : flat_map (fun row => row ++ format_zero (8 - width mod 8))
                            (map (firstn (Z.to_nat width)) brows)
                   = flat_map format_08b b).
    { rewrite Hbits, flat_map_concat_map, map_map. f_equal.
      rewrite <- (map_id brows) at 2. apply map_ext_in. intros r Hin.
      unfold zero_padded, row_paddings in Hz. fold step in Hz.
      rewrite Hbits, <- (app_nil_r (concat brows)) in Hz.
      rewrite pieces_blocks in Hz
        by first [assumption | unfold len; cbn [length]; lia].
      cbn [last_piece map] in Hz. rewrite app_nil_r in Hz.
      rewrite Forall_map, Forall_forall in Hz. specialize (Hz r Hin).
      rewrite Forall_forall in Hbrows. specialize (Hbrows r Hin).
      rewrite firstn_all2 in Hz by (unfold len in Hbrows; lia).
      apply all_zero_repeat in Hz.
      rewrite <- (firstn_skipn (Z.to_nat width) r) at 2. f_equal.
      rewrite Hz. unfold format_zero. f_equal.
      rewrite length_skipn. unfold len in Hbrows. lia. }
    rewrite Hpad. apply pack_format.
Qed.

Lemma len_bits (b : bytes) : len (flat_map format_08b b) = 8 * len b.
Proof.
  induction b as [|x b IH]; [reflexivity|].
  cbn [flat_map]. rewrite len_app, IH, len_format_08b.
  unfold len. cbn [length]. lia.
Qed.

(* ================================================================= *)
(** ** Text: coding, lines, fields and numerals *)

Lemma to_N_byte_of_ascii c : Byte.to_N (byte_of_ascii c) = N_of_ascii c.
Proof. destruct c as [[] [] [] [] [] [] [] []]; reflexivity. Qed.

Lemma N_of_ascii_of_byte x : N_of_ascii (ascii_of_byte x) = Byte.to_N x.
Proof. destruct x; reflexivity. Qed.

Lemma encode_app s t : encode (s ++ t) = encode s ++ encode t.
Proof. apply flat_map_app. Qed.

Lemma encode_char_ascii c :
  (N_of_ascii c < 128)%N -> encode_char c = [byte_of_ascii c].
Proof.
  intros H. unfold encode_char.
  destruct (N.ltb_spec (N_of_ascii c) 128); [reflexivity|lia].
Qed.

Lemma decode_encode s :
  Forall (fun c => (N_of_ascii c < 128)%N) s -> decode_ascii (encode s) = Ok s.
Proof.
  induction 1 as [|c s Hc _ IH]; [reflexivity|].
  cbn [encode flat_map]. rewrite encode_char_ascii by assumption.
  cbn [app decode_ascii]. rewrite to_N_byte_of_ascii.
  destruct (N.ltb_spec (N_of_ascii c) 128); [|lia].
  fold (encode s). rewrite IH. cbn [bind].
  now rewrite ascii_of_byte_of_ascii.
Qed.

Lemma decode_ascii_inv b s : decode_ascii b = Ok s -> b = encode s.
Proof.
  revert s. induction b as [|x b IH]; intros s H; cbn [decode_ascii] in H.
  - now injection H as <-.
  - destruct (N.ltb_spec (Byte.to_N x) 128) as [Hx|]; [|discriminate H].
    destruct (decode_ascii b) as [s'|e]; [|discriminate H].
    cbn [bind] in H. injection H as <-.
    cbn [encode flat_map]. rewrite encode_char_ascii
      by now rewrite N_of_ascii_of_byte.
    rewrite byte_of_ascii_of_byte. cbn [app]. f_equal. now apply IH.
Qed.

Lemma plain_ascii s : plain s -> Forall (fun c => (N_of_ascii c < 128)%N) s.
Proof. apply Forall_impl. now intros c []. Qed.

Lemma bitstring_plain s : bitstring s -> plain s.
Proof.
  apply Forall_impl. intros c [-> | ->]; split; (reflexivity || discriminate).
Qed.

(** Reading a line that was written as [str.encode(s + "\n")]. *)
Lemma readline_encode s rest :
  plain s ->
  readline (encode (s ++ [NL]) ++ rest) = (encode (s ++ [NL]), rest).
Proof.
  induction 1 as [|c s [Hc Hnl] _ IH].
  - reflexivity.
  - cbn [app encode flat_map]. fold (encode (s ++ [NL])).
    rewrite encode_char_ascii by assumption.
    cbn [app readline].
    destruct (Byte.eqb (byte_of_ascii c) "010") eqn:E.
    + apply Byte.byte_dec_bl in E. exfalso. apply Hnl.
      rewrite <- (ascii_of_byte_of_ascii c), E. reflexivity.
    + now rewrite IH.
Qed.

Lemma chopped_line s :
  plain s -> decode_ascii (slice (encode (s ++ [NL])) 0 (-1)) = Ok s.
Proof.
  intros H. rewrite encode_app.
  change (encode [NL]) with ["010"%byte].
  rewrite slice_drop_last. now apply decode_encode, plain_ascii.
Qed.

(** [split]: fields without the separator. *)
Lemma split_whole s sep : ~ In sep s -> split s sep = [s].
Proof.
  induction s as [|c s IH]; intros Hn; [reflexivity|].
  cbn [split]. destruct (Ascii.eqb_spec c sep) as [->|_].
  - exfalso. apply Hn. now left.
  - rewrite IH; [reflexivity|]. intros Hin. apply Hn. now right.
Qed.

Lemma split_field s t sep :
  ~ In sep s -> split (s ++ sep :: t) sep = s :: split t sep.
Proof.
  induction s as [|c s IH]; intros Hn; cbn [app split].
  - now rewrite Ascii.eqb_refl.
  - destruct (Ascii.eqb_spec c sep) as [->|_].
    + exfalso. apply Hn. now left.
    + rewrite IH; [reflexivity|]. intros Hin. apply Hn. now right.
Qed.

(** Joining what [split] separated at the newlines removes the newline
    that ends every line. *)
Lemma join_split_lines (lines : list str) :
  Forall (fun l => ~ In NL l) lines ->
  join (split (concat (map (fun l => l ++ [NL]) lines)) NL) = concat lines.
Proof.
  induction 1 as [|l lines Hl _ IH]; [reflexivity|].
  cbn [map concat]. rewrite <- app_assoc. cbn [app].
  rewrite split_field by assumption.
  unfold join in *. cbn [concat]. now rewrite IH.
Qed.

(** *** Numerals: [int(str(n)) == n] *)

Ltac digit_cases H :=
  unfold is_digit in H; cbn in H;
  repeat (destruct H as [<- | H]); [.. | contradiction].

Lemma uint_chars_digits d : Forall is_digit (uint_chars d).
Proof.
  unfold uint_chars.
  induction d; cbn [NilEmpty.string_of_uint list_ascii_of_string];
    constructor; auto; unfold is_digit; cbn; tauto.
Qed.

Lemma scan_uint_pos d p n :
  scan_digits 10 (uint_chars d) false (Z.pos p) n
  = Some (Z.pos (Pos.of_uint_acc d p), (n + Decimal.nb_digits d)%nat, []).
Proof.
  unfold uint_chars. revert p n.
  induction d; intros p n;
    cbn [NilEmpty.string_of_uint list_ascii_of_string scan_digits
         Pos.of_uint_acc Decimal.nb_digits];
    [ now rewrite Nat.add_0_r | .. ];
    match goal with
    | |- context [Ascii.eqb ?c "_"] =>
        change (Ascii.eqb c "_") with false;
        change (digit_value c <? 10) with true;
        let k := eval vm_compute in (digit_value c) in
        change (digit_value c) with k
    end; cbv iota;
    match goal with
    | |- scan_digits 10 _ false ?v _ = Some (Z.pos (Pos.of_uint_acc _ ?q), _, _) =>
        replace v with (Z.pos q) by lia
    end;
    rewrite IHd; do 3 f_equal; lia.
Qed.

Lemma scan_uint_zero d n :
  scan_digits 10 (uint_chars d) false 0 n
  = Some (Z.of_N (Pos.of_uint d), (n + Decimal.nb_digits d)%nat, []).
Proof.
  revert n.
  induction d; intros n;
    try (unfold uint_chars;
         cbn [NilEmpty.string_of_uint list_ascii_of_string scan_digits];
         fold (uint_chars d);
         match goal with
         | |- context [Ascii.eqb ?c "_"] =>
             change (Ascii.eqb c "_") with false;
             change (digit_value c <? 10) with true;
             let k := eval vm_compute in (0 * 10 + digit_value c) in
             change (0 * 10 + digit_value c) with k
         end; cbv iota).
  - cbn. now rewrite Nat.add_0_r.
  - rewrite IHd. cbn [Pos.of_uint Decimal.nb_digits]. do 3 f_equal. lia.
  - rewrite scan_uint_pos. cbn [Pos.of_uint Decimal.nb_digits]. do 3 f_equal. lia.
  - rewrite scan_uint_pos. cbn [Pos.of_uint Decimal.nb_digits]. do 3 f_equal. lia.
  - rewrite scan_uint_pos. cbn [Pos.of_uint Decimal.nb_digits]. do 3 f_equal. lia.
  - rewrite scan_uint_pos. cbn [Pos.of_uint Decimal.nb_digits]. do 3 f_equal. lia.
  - rewrite scan_uint_pos. cbn [Pos.of_uint Decimal.nb_digits]. do 3 f_equal. lia.
  - rewrite scan_uint_pos. cbn [Pos.of_uint Decimal.nb_digits]. do 3 f_equal. lia.
  - rewrite scan_uint_pos. cbn [Pos.of_uint Decimal.nb_digits]. do 3 f_equal. lia.
  - rewrite scan_uint_pos. cbn [Pos.of_uint Decimal.nb_digits]. do 3 f_equal. lia.
  - rewrite scan_uint_pos. cbn [Pos.of_uint Decimal.nb_digits]. do 3 f_equal. lia.
Qed.

Lemma strip_prefix_10 s : strip_prefix 10 s = s.
Proof. destruct s as [|z [|b r]]; reflexivity. Qed.

(** [int] on a string that starts with a digit and is read to its end. *)
Lemma int_digits c r v n :
  is_digit c ->
  scan_digits 10 (c :: r) false 0 0 = Some (v, S n, []) ->
  int (c :: r) 10 = Ok v /\ int ("-"%char :: c :: r) 10 = Ok (- v).
Proof.
  intros Hc Hscan. unfold int.
  assert (Hs : is_space c = false) by (digit_cases Hc; reflexivity).
  assert (Hp : Ascii.eqb c "+" = false) by (digit_cases Hc; reflexivity).
  assert (Hm : Ascii.eqb c "-" = false) by (digit_cases Hc; reflexivity).
  assert (Hu : Ascii.eqb c "_" = false) by (digit_cases Hc; reflexivity).
  split.
  - cbn [skip_spaces strip_sign]. rewrite Hs. cbn [strip_sign].
    rewrite Hp, Hm, strip_prefix_10, Hu, Hscan. cbn [skip_spaces].
    f_equal; lia.
  - cbn [skip_spaces]. change (is_space "-") with false. cbv iota.
    cbn [strip_sign]. change (Ascii.eqb "-" "+") with false.
    change (Ascii.eqb "-" "-") with true. cbv iota.
    rewrite strip_prefix_10, Hu, Hscan. cbn [skip_spaces].
    f_equal; lia.
Qed.

Lemma int_uint d :
  d <> Decimal.Nil ->
  int (uint_chars d) 10 = Ok (Z.of_N (Pos.of_uint d))
  /\ int ("-"%char :: uint_chars d) 10 = Ok (- Z.of_N (Pos.of_uint d)).
Proof.
  intros Hd.
  pose proof (uint_chars_digits d) as Hdig.
  pose proof (scan_uint_zero d 0) as Hscan.
  destruct (uint_chars d) as [|c r] eqn:E.
  - exfalso. destruct d; try discriminate E. now apply Hd.
  - apply Forall_cons_iff in Hdig. destruct Hdig as [Hc _].
    destruct (Decimal.nb_digits d) as [|n] eqn:En.
    + destruct d; try discriminate En. now elim Hd.
    + now apply (int_digits c r _ n).
Qed.

Theorem int_str_of_int (n : Z) : int (str_of_int n) 10 = Ok n.
Proof.
  destruct n as [|p|p]; [reflexivity| |].
  - unfold str_of_int. cbn [Z.to_int NilEmpty.string_of_int].
    fold (uint_chars (Pos.to_uint p)).
    destruct (int_uint (Pos.to_uint p) (DecimalPos.Unsigned.to_uint_nonnil p)) as [-> _].
    now rewrite DecimalPos.Unsigned.of_to.
  - unfold str_of_int. cbn [Z.to_int NilEmpty.string_of_int list_ascii_of_string].
    fold (uint_chars (Pos.to_uint p)).
    destruct (int_uint (Pos.to_uint p) (DecimalPos.Unsigned.to_uint_nonnil p)) as [_ ->].
    now rewrite DecimalPos.Unsigned.of_to.
Qed.

Lemma str_of_int_chars (n : Z) : Forall numeral_char (str_of_int n).
Proof.
  assert (H : forall d, Forall numeral_char (uint_chars d)).
  { intros d. eapply Forall_impl; [|apply uint_chars_digits]. now right. }
  destruct n as [|p|p]; unfold str_of_int;
    cbn [Z.to_int NilEmpty.string_of_int list_ascii_of_string].
  - apply (H Decimal.zero).
  - apply H.
  - constructor; [now left | apply H].
Qed.

Lemma numeral_char_plain c : numeral_char c -> plain_char c /\ c <> SP /\ c <> "#"%char.
Proof.
  intros [-> | H]; [|digit_cases H];
    (split; [split; [reflexivity|discriminate] | split; discriminate]).
Qed.

(* ================================================================= *)
(** ** Reading the header *)

Lemma str_eqb_eq a b : str_eqb a b = true <-> a = b.
Proof.
  unfold str_eqb. destruct (list_eq_dec ascii_dec a b); split; auto.
  discriminate.
Qed.

Lemma bytes_eqb_eq a b : bytes_eqb a b = true <-> a = b.
Proof.
  unfold bytes_eqb. destruct (list_eq_dec Byte.byte_eq_dec a b); split; auto.
  discriminate.
Qed.

(** [loadpbm] in terms of the lines it reads. *)
Lemma loadpbm_lines filename contents :
  loadpbm filename contents
  = (mode <- decode_ascii (first_line contents) ;;
     dim <- decode_ascii (third_line contents) ;;
     match split dim SP with
     | [w; h] =>
         data <-
           (if str_eqb mode (lit "P1") then
              data <- decode_ascii (body_of contents) ;;
              Ok (join (split data NL))
            else if str_eqb mode (lit "P4") then
              width <- int w 10 ;;
              bin2ascii (body_of contents) width
            else
              Raise (PyException (lit "unknown format from file " ++ filename))) ;;
         width <- int w 10 ;;
         height <- int h 10 ;;
         Ok (mode, data, width, height)
     | _ => Raise ValueError
     end).
Proof.
  unfold loadpbm, first_line, third_line, body_of.
  destruct (readline contents) as [l1 f1]. cbn [fst snd].
  destruct (readline f1) as [l2 f2]. cbn [fst snd].
  destruct (readline f2) as [l3 f3]. reflexivity.
Qed.

Lemma loadpbm_P1 filename contents dim fw fh :
  first_line contents = encode (lit "P1") ->
  decode_ascii (third_line contents) = Ok dim ->
  split dim SP = [fw; fh] ->
  loadpbm filename contents
  = (data <- decode_ascii (body_of contents) ;;
     width <- int fw 10 ;;
     height <- int fh 10 ;;
     Ok (lit "P1", join (split data NL), width, height)).
Proof.
  intros H1 H3 Hs. rewrite loadpbm_lines, H1, H3.
  change (decode_ascii (encode (lit "P1"))) with (Ok (lit "P1")).
  cbn [bind]. rewrite Hs.
  change (str_eqb (lit "P1") (lit "P1")) with true. cbv iota.
  destruct (decode_ascii (body_of contents)); reflexivity.
Qed.

Lemma loadpbm_P4 filename contents dim fw fh :
  first_line contents = encode (lit "P4") ->
  decode_ascii (third_line contents) = Ok dim ->
  split dim SP = [fw; fh] ->
  loadpbm filename contents
  = (width <- int fw 10 ;;
     data <- bin2ascii (body_of contents) width ;;
     height <- int fh 10 ;;
     Ok (lit "P4", data, width, height)).
Proof.
  intros H1 H3 Hs. rewrite loadpbm_lines, H1, H3.
  change (decode_ascii (encode (lit "P4"))) with (Ok (lit "P4")).
  cbn [bind]. rewrite Hs.
  change (str_eqb (lit "P4") (lit "P1")) with false.
  change (str_eqb (lit "P4") (lit "P4")) with true. cbv iota.
  destruct (int fw 10) as [w|e]; [|reflexivity]. cbn [bind].
  destruct (bin2ascii (body_of contents) w); reflexivity.
Qed.

(** The three header lines of a file written line by line. *)
Lemma header_lines m c d body :
  plain m -> plain c -> plain d ->
  let f := encode (m ++ [NL]) ++ encode (c ++ [NL]) ++ encode (d ++ [NL])
           ++ body in
  first_line f = encode m
  /\ second_line f = encode (c ++ [NL])
  /\ third_line f = encode d
  /\ body_of f = body.
Proof.
  intros Hm Hc Hd f. unfold first_line, second_line, third_line, body_of, f.
  rewrite !readline_encode by assumption. cbn [fst snd].
  rewrite !readline_encode by assumption. cbn [fst snd].
  rewrite !readline_encode by assumption. cbn [fst snd].
  rewrite !encode_app. change (encode [NL]) with ["010"%byte].
  rewrite !slice_drop_last. auto.
Qed.

(* ================================================================= *)
(** ** What [write_pbm] writes *)

Ltac solve_plain :=
  repeat (constructor; [split; [reflexivity | discriminate] | ]);
  try constructor.

Lemma plain_app s t : plain s -> plain t -> plain (s ++ t).
Proof. intros Hs Ht. apply Forall_app. now split. Qed.

Lemma plain_str_of_int n : plain (str_of_int n).
Proof.
  eapply Forall_impl; [|apply str_of_int_chars].
  intros c Hc. now apply numeral_char_plain.
Qed.

Lemma no_space_str_of_int n : ~ In SP (str_of_int n).
Proof.
  intros Hin. pose proof (str_of_int_chars n) as H.
  rewrite Forall_forall in H. specialize (H SP Hin).
  now apply numeral_char_plain in H.
Qed.

Lemma plain_dimensions_line w h : plain (dimensions_line w h).
Proof.
  unfold dimensions_line.
  repeat apply plain_app; try apply plain_str_of_int. solve_plain.
Qed.

Lemma plain_magic_of mode : plain (magic_of mode).
Proof. unfold magic_of. destruct (str_eqb mode _); solve_plain. Qed.

Lemma split_dimensions_line w h :
  split (dimensions_line w h) SP = [str_of_int w; str_of_int h].
Proof.
  unfold dimensions_line. change (lit " " ++ str_of_int h)
    with (SP :: str_of_int h).
  rewrite split_field by apply no_space_str_of_int.
  now rewrite split_whole by apply no_space_str_of_int.
Qed.

Lemma header_eq magic w h :
  header magic w h
  = encode (magic ++ [NL])
    ++ encode (lit "# Created by svg2pbm converter" ++ [NL])
    ++ encode (dimensions_line w h ++ [NL]).
Proof.
  unfold header, comment_line, dimensions_line.
  now rewrite <- !app_assoc.
Qed.

(** Reading back the header that [write_pbm] wrote. *)
Lemma header_read magic w h body :
  plain magic ->
  let f := header magic w h ++ body in
  first_line f = encode magic
  /\ second_line f = encode comment_line
  /\ third_line f = encode (dimensions_line w h)
  /\ body_of f = body.
Proof.
  intros Hm f. unfold f. rewrite header_eq, <- !app_assoc.
  apply header_lines; [assumption|solve_plain|apply plain_dimensions_line].
Qed.

Lemma encode_concat (ls : list str) :
  encode (concat ls) = concat (map encode ls).
Proof.
  induction ls as [|l ls IH]; [reflexivity|].
  cbn [concat map]. now rewrite encode_app, IH.
Qed.

(** The file [write_pbm] writes always starts with the header. *)
Lemma write_pbm_header buffer w h mode :
  exists body,
    fst (write_pbm buffer w h mode) = header (magic_of mode) w h ++ body.
Proof.
  unfold write_pbm, header, magic_of, comment_line. cbn [app].
  destruct (str_eqb mode (lit "ascii"));
    (destruct (str_eqb mode (lit "bin"));
     [ destruct buffer as [s|b];
       [ exists []; cbn [fst]; now rewrite app_nil_r
       | exists b; reflexivity ]
     | destruct (range 0 (buffer_len buffer) (if 70 <=? w then 70 else w))
         as [cols|e];
       [ destruct buffer as [s|b];
         [ eexists; cbn [fst]; rewrite fold_append; reflexivity
         | destruct cols; exists []; cbn [fst]; now rewrite app_nil_r ]
       | exists []; cbn [fst]; now rewrite app_nil_r ] ]).
Qed.

(** The ascii file: the header, then the lines the loop cuts. *)
Lemma write_pbm_ascii s w h :
  1 <= w ->
  write_pbm (PyStr s) w h (lit "ascii")
  = (header (lit "P1") w h
     ++ encode (concat (map (fun l => l ++ [NL])
                            (pieces s (Z.min 70 w) 0 (Z.min 70 w)))),
     Ok tt).
Proof.
  intros Hw. unfold write_pbm, header, comment_line, pieces.
  change (str_eqb (lit "ascii") (lit "ascii")) with true.
  change (str_eqb (lit "ascii") (lit "bin")) with false. cbv iota.
  assert (Hll : (if 70 <=? w then 70 else w) = Z.min 70 w)
    by (destruct (Z.leb_spec 70 w); lia).
  rewrite Hll. cbn [buffer_len app].
  destruct (range_ok (len s) (Z.min 70 w)) as (cols & ->); [lia|].
  rewrite fold_append. f_equal. f_equal.
  rewrite encode_concat, !map_map, flat_map_concat_map. f_equal.
  apply map_ext. intros c. now rewrite Z.add_0_r.
Qed.

Lemma write_pbm_bin b w h :
  write_pbm (PyBytes b) w h (lit "bin") = (header (lit "P4") w h ++ b, Ok tt).
Proof. reflexivity. Qed.

(** The pieces of a loop that takes whole steps cover the list. *)
Lemma pieces_cover {A} (l : list A) step :
  0 < step ->
  concat (pieces l step 0 step) = l
  /\ Forall (fun p => len p <= step) (pieces l step 0 step).
Proof.
  intros Hs.
  destruct (blocks_exist step l Hs) as (rows & t & -> & Hrows & Ht).
  rewrite pieces_blocks by first [assumption | lia].
  rewrite firstn_block by assumption.
  assert (Hlast : map (fun t0 : list A => slice t0 0 step) (last_piece t)
                  = last_piece t).
  { destruct t as [|x t]; [reflexivity|]. cbn [last_piece map].
    rewrite slice_all by lia. reflexivity. }
  rewrite Hlast. split.
  - rewrite concat_app. f_equal. destruct t; cbn; [reflexivity|].
    now rewrite app_nil_r.
  - apply Forall_app. split.
    + eapply Forall_impl; [|exact Hrows]. cbv beta. intros r Hr. lia.
    + destruct t; cbn [last_piece]; repeat constructor. lia.
Qed.

Lemma lines_body (lines : list str) :
  Forall bitstring lines ->
  let body := concat (map (fun l => l ++ [NL]) lines) in
  decode_ascii (encode body) = Ok body
  /\ join (split body NL) = concat lines.
Proof.
  intros Hl body. split.
  - apply decode_encode. unfold body.
    apply Forall_concat, Forall_map.
    eapply Forall_impl; [|exact Hl]. cbv beta. intros l Hb.
    apply Forall_app. split.
    + now apply plain_ascii, bitstring_plain.
    + repeat constructor.
  - apply join_split_lines.
    eapply Forall_impl; [|exact Hl]. cbv beta. intros l Hb Hin.
    unfold bitstring in Hb. rewrite Forall_forall in Hb.
    destruct (Hb NL Hin); discriminate.
Qed.

(** The buffer [convert] packs and writes is a bit-string. *)
Lemma img2pbm_ascii_bits imgdata width :
  exists s, img2pbm_ascii imgdata width = Ok s /\ bitstring s.
Proof.
  unfold img2pbm_ascii.
  destruct (range_ok (len imgdata) 3) as (cols & ->); [lia|].
  cbn [bind]. eexists. split; [reflexivity|].
  rewrite fold_append. cbn [app]. rewrite flat_map_concat_map.
  apply bitstring_concat, Forall_map, Forall_forall. intros c _.
  destruct (1 <? Byte.to_N _)%N; solve_bits.
Qed.

(** So [convert] is its writing half on a bit-string. *)
Lemma convert_bits imgdata width height mode :
  exists s, bitstring s
         /\ convert imgdata width height mode
            = convert_buffer s width height mode.
Proof.
  destruct (img2pbm_ascii_bits imgdata width) as (s & Hs & Hb).
  exists s. split; [assumption|]. unfold convert. now rewrite Hs.
Qed.

(* ================================================================= *)
(** ** The properties of the codec *)

(** C1 — Round trip.  For a bitmap of positive [width] and [height] whose
    [bits] are a bit-string of length [width * height], the file that
    [convert] writes in ascii mode is loaded back by [loadpbm] as the same
    bits and dimensions (with mode [P1]), and the file it writes in binary
    mode ([bin]) is loaded back as the same bits and dimensions (with mode
    [P4]). *)
Theorem encode_decode_roundtrip filename bits width height :
  1 <= width -> 1 <= height -> bitstring bits ->
  len bits = width * height ->
  (exists f, convert_buffer bits width height (lit "ascii") = Ok (Some f)
             /\ loadpbm filename f = Ok (lit "P1", bits, width, height))
  /\ (exists f, convert_buffer bits width height (lit "bin") = Ok (Some f)
             /\ loadpbm filename f = Ok (lit "P4", bits, width, height)).
Proof.
  intros Hw Hh Hbits Hlen.
  assert (Hm : (len bits) mod width = 0)
    by (rewrite Hlen, Z.mul_comm; apply Z_mod_mult).
  destruct (bin2ascii_ascii2bin bits width Hw Hbits Hm) as (b & Ha & Hb).
  unfold convert_buffer. rewrite Ha. cbn [bind].
  change (str_eqb (lit "ascii") (lit "ascii")) with true.
  change (str_eqb (lit "bin") (lit "ascii")) with false.
  change (str_eqb (lit "bin") (lit "bin")) with true. cbv iota.
  assert (Hdim : decode_ascii (encode (dimensions_line width height))
                 = Ok (dimensions_line width height))
    by apply decode_encode, plain_ascii, plain_dimensions_line.
  split.
  - rewrite write_pbm_ascii by assumption.
    eexists. split; [reflexivity|].
    match goal with
    | |- loadpbm _ (header _ _ _ ++ ?body) = _ =>
        destruct (header_read (lit "P1") width height body)
          as (H1 & _ & H3 & H4); [solve_plain|]
    end.
    rewrite (loadpbm_P1 _ _ _ _ _ H1 (eq_trans (f_equal _ H3) Hdim)
                        (split_dimensions_line width height)).
    rewrite H4.
    destruct (pieces_cover bits (Z.min 70 width) ltac:(lia)) as [Hcat _].
    destruct (lines_body (pieces bits (Z.min 70 width) 0 (Z.min 70 width)))
      as [Hdec Hjoin].
    { apply bitstring_concat. now rewrite Hcat. }
    rewrite Hdec. cbn [bind]. rewrite Hjoin, Hcat, !int_str_of_int.
    reflexivity.
  - rewrite write_pbm_bin.
    eexists. split; [reflexivity|].
    destruct (header_read (lit "P4") width height b)
      as (H1 & _ & H3 & H4); [solve_plain|].
    rewrite (loadpbm_P4 _ _ _ _ _ H1 (eq_trans (f_equal _ H3) Hdim)
                        (split_dimensions_line width height)).
    rewrite H4, !int_str_of_int. cbn [bind]. rewrite Hb. reflexivity.
Qed.

Lemma encode_decode_roundtrip_witness :
  (exists f, convert_buffer (lit "101010") 3 2 (lit "ascii") = Ok (Some f)
             /\ loadpbm (lit "a.pbm") f = Ok (lit "P1", lit "101010", 3, 2))
  /\ (exists f, convert_buffer (lit "101010") 3 2 (lit "bin") = Ok (Some f)
             /\ loadpbm (lit "a.pbm") f = Ok (lit "P4", lit "101010", 3, 2)).
Proof.
  apply (encode_decode_roundtrip (lit "a.pbm") (lit "101010") 3 2);
    [lia | lia | solve_bits | reflexivity].
Defined.

Lemma ceil8 width : width mod 8 <> 0 -> (width + 7) / 8 = width / 8 + 1.
Proof.
  intros H. pose proof (Z.div_mod width 8 ltac:(lia)).
  pose proof (Z.mod_pos_bound width 8 ltac:(lia)).
  symmetry. apply (Z.div_unique_pos (width + 7) 8 _ (width mod 8 - 1)); lia.
Qed.

Lemma bitstring_pieces s step a b : bitstring s -> Forall bitstring (pieces s step a b).
Proof.
  intros H. unfold pieces. destruct (range 0 (len s) step); [|constructor].
  apply Forall_map, Forall_forall. intros c _. now apply bitstring_slice.
Qed.

(** C2, amended — Row repacking.  For every width [w >= 1] and every
    bit-string [s] whose length is a multiple of [w],
    [bin2ascii(ascii2bin(s, w), w) == s]; and for every width [w >= 1]
    that is not a multiple of 8 and every byte buffer [b] whose length is
    a multiple of [ceil(w/8)] and whose padding bits (the last
    [8 - w % 8] bits of every row) are zero,
    [ascii2bin(bin2ascii(b, w), w) == b]. *)
Theorem row_repacking_inverses s b width :
  1 <= width ->
  (bitstring s -> (len s) mod width = 0 ->
   (packed <- ascii2bin s width ;; bin2ascii packed width) = Ok s)
  /\ (width mod 8 <> 0 -> (len b) mod ((width + 7) / 8) = 0 ->
      zero_padded b width ->
      (unpacked <- bin2ascii b width ;; ascii2bin unpacked width) = Ok b).
Proof.
  intros Hw. split.
  - intros Hs Hm.
    destruct (bin2ascii_ascii2bin s width Hw Hs Hm) as (packed & -> & Hb).
    exact Hb.
  - intros H8 Hm Hz.
    destruct (ascii2bin_bin2ascii b width Hw) as (unpacked & -> & Ha);
      [|assumption|exact Ha].
    rewrite len_bits, width_padded, <- (ceil8 width H8).
    apply Z.mod_divide in Hm; [|rewrite ceil8 by assumption;
                                pose proof (Z.div_pos width 8); lia].
    destruct Hm as [k ->].
    rewrite Z.mul_assoc, (Z.mul_comm 8 k), <- Z.mul_assoc.
    apply Z_mod_mult.
Qed.

Lemma row_repacking_inverses_witness :
  (packed <- ascii2bin (lit "101010") 3 ;; bin2ascii packed 3)
  = Ok (lit "101010")
  /\ (unpacked <- bin2ascii [xa0; x40] 3 ;; ascii2bin unpacked 3)
     = Ok [xa0; x40].
Proof.
  destruct (row_repacking_inverses (lit "101010") [xa0; x40] 3) as [H1 H2];
    [lia|].
  split.
  - apply H1; [solve_bits | reflexivity].
  - apply H2; [discriminate | reflexivity |].
    repeat constructor.
Defined.

(** C2 as stated fails: the one-byte buffer [0xFF] has a length that is a
    multiple of [ceil(1/8) = 1], but [bin2ascii] drops its seven padding
    bits and [ascii2bin] writes zeros for them. *)
Lemma padding_bits_not_restored :
  1 <= 1 /\ (len [xff]) mod ((1 + 7) / 8) = 0
  /\ (unpacked <- bin2ascii [xff] 1 ;; ascii2bin unpacked 1) = Ok [x80]
  /\ (unpacked <- bin2ascii [xff] 1 ;; ascii2bin unpacked 1) <> Ok [xff].
Proof.
  split; [lia|]. split; [reflexivity|]. split; [reflexivity|].
  intros H. vm_compute in H. discriminate H.
Qed.

(** What a row occupies in the output of [ascii2bin]: [w / 8 + 1] bytes,
    for every width, a multiple of 8 or not. *)
Lemma ascii2bin_row_bytes rows width :
  1 <= width -> Forall (fun row => len row = width) rows ->
  Forall bitstring rows ->
  exists b, ascii2bin (concat rows) width = Ok b
         /\ len b = Z.of_nat (length rows) * (width / 8 + 1).
Proof.
  intros Hw Hrows Hbits.
  pose proof (Z.mod_pos_bound width 8 ltac:(lia)) as Hmod.
  assert (Hlen : len (concat rows) = Z.of_nat (length rows) * width)
    by now apply len_concat_blocks.
  destruct (bin2ascii_ascii2bin (concat rows) width Hw) as (b & Ha & _).
  - now apply bitstring_concat.
  - rewrite Hlen. apply Z_mod_mult.
  - exists b. split; [assumption|].
    rewrite ascii2bin_rows in Ha by (assumption || lia). cbv zeta in Ha.
    set (pad := format_zero (8 - width mod 8)) in *.
    assert (Hp : Forall (fun row => len row = width + (8 - width mod 8))
                        (map (fun row => row ++ pad) rows)).
    { apply Forall_map. rewrite Forall_forall in *. intros r Hin.
      rewrite len_app, (Hrows r Hin). unfold pad.
      rewrite len_format_zero by lia. reflexivity. }
    rewrite flat_map_concat_map in Ha.
    destruct (pack_bits (concat (map (fun row => row ++ pad) rows)))
      as (b' & Hpack & Hbits').
    + apply bitstring_concat, Forall_map. rewrite Forall_forall in *.
      intros r Hin. apply bitstring_app. split; auto. apply bitstring_zero.
    + rewrite (len_concat_blocks _ _ Hp), width_padded.
      rewrite Z.mul_assoc, (Z.mul_comm _ 8), <- Z.mul_assoc, Z.mul_comm.
      apply Z_mod_mult.
    + rewrite Hpack in Ha. injection Ha as <-.
      apply (f_equal len) in Hbits'.
      rewrite len_bits, (len_concat_blocks _ _ Hp), length_map,
        width_padded in Hbits'. lia.
Qed.

(** C3 — the defect.  For a width that is a multiple of 8 the row gets
    eight padding bits, one whole zero byte: the row [10101010] of width 8
    is packed into the two bytes [0xAA 0x00], where [ceil(8/8) = 1]. *)
Theorem ascii2bin_pads_full_byte :
  ascii2bin (lit "10101010") 8 = Ok [xaa; x00] /\ (8 + 7) / 8 = 1.
Proof. split; reflexivity. Qed.






(** C9 — Line wrapping of the ascii body.  For a bit-string [bits] and a
    width of at least 1, [write_pbm] in ascii mode writes the header and
    then [bits] cut into lines, every line ended by a newline and of at
    most [min(70, width)] characters; the lines hold no newline, they
    concatenate to [bits], and removing the newlines from the body gives
    [bits] back. *)
Theorem ascii_body_lines bits width height :
  1 <= width -> bitstring bits ->
  exists lines,
    write_pbm (PyStr bits) width height (lit "ascii")
    = (header (lit "P1") width height
       ++ encode (concat (map (fun l => l ++ [NL]) lines)), Ok tt)
    /\ Forall (fun l => len l <= Z.min 70 width) lines
    /\ Forall (fun l => ~ In NL l) lines
    /\ concat lines = bits
    /\ join (split (concat (map (fun l => l ++ [NL]) lines)) NL) = bits.
Proof.
  intros Hw Hbits.
  exists (pieces bits (Z.min 70 width) 0 (Z.min 70 width)).
  destruct (pieces_cover bits (Z.min 70 width) ltac:(lia)) as [Hcat Hlen].
  assert (Hl : Forall bitstring (pieces bits (Z.min 70 width) 0 (Z.min 70 width)))
    by now apply bitstring_pieces.
  destruct (lines_body _ Hl) as [_ Hjoin].
  split; [now apply write_pbm_ascii|]. split; [assumption|].
  split; [|split; [assumption|now rewrite Hjoin]].
  eapply Forall_impl; [|exact Hl]. cbv beta. intros l Hb Hin.
  unfold bitstring in Hb. rewrite Forall_forall in Hb.
  destruct (Hb NL Hin); discriminate.
Qed.

Lemma ascii_body_lines_witness :
  exists lines,
    write_pbm (PyStr (lit "101010")) 3 2 (lit "ascii")
    = (header (lit "P1") 3 2
       ++ encode (concat (map (fun l => l ++ [NL]) lines)), Ok tt)
    /\ Forall (fun l => len l <= Z.min 70 3) lines
    /\ Forall (fun l => ~ In NL l) lines
    /\ concat lines = lit "101010"
    /\ join (split (concat (map (fun l => l ++ [NL]) lines)) NL)
       = lit "101010".
Proof.
  apply (ascii_body_lines (lit "101010") 3 2); [lia | solve_bits].
Defined.

Lemma str_of_int_head n :
  exists c r, str_of_int n = c :: r /\ numeral_char c.
Proof.
  pose proof (str_of_int_chars n) as H. pose proof (int_str_of_int n) as Hi.
  destruct (str_of_int n) as [|c r]; [discriminate Hi|].
  exists c, r. split; [reflexivity|]. now apply Forall_cons_iff in H.
Qed.

Lemma dimensions_header magic w h body :
  plain magic -> dimensions (header magic w h ++ body) = Ok (w, h).
Proof.
  intros Hm. destruct (header_read magic w h body Hm) as (_ & _ & H3 & _).
  unfold dimensions. rewrite H3.
  rewrite decode_encode by apply plain_ascii, plain_dimensions_line.
  cbn [bind]. rewrite split_dimensions_line, !int_str_of_int. reflexivity.
Qed.

(** C10 — The comment line.  Whatever the buffer, the dimensions and the
    mode, the file [write_pbm] writes starts with the magic-number line
    ([P1] in ascii mode, [P4] otherwise), then the one line
    [# Created by svg2pbm converter], then the dimensions line, which
    starts with a digit or a minus sign and so is no comment line; the
    third line is where [loadpbm] finds the dimensions. *)
Theorem write_pbm_one_comment_line buffer width height mode :
  let f := fst (write_pbm buffer width height mode) in
  (exists body,
      f = encode (magic_of mode ++ [NL])
          ++ encode (lit "# Created by svg2pbm converter" ++ [NL])
          ++ encode (dimensions_line width height ++ [NL]) ++ body)
  /\ first_line f = encode (magic_of mode)
  /\ second_line f = encode (lit "# Created by svg2pbm converter" ++ [NL])
  /\ third_line f = encode (dimensions_line width height)
  /\ (exists c r, dimensions_line width height = c :: r /\ numeral_char c)
  /\ dimensions f = Ok (width, height).
Proof.
  cbv zeta.
  destruct (write_pbm_header buffer width height mode) as (body & ->).
  destruct (header_read (magic_of mode) width height body
                        (plain_magic_of mode)) as (H1 & H2 & H3 & _).
  split; [|split; [|split; [|split; [|split]]]]; try assumption.
  - exists body. now rewrite header_eq, <- !app_assoc.
  - destruct (str_of_int_head width) as (c & r & Hc & Hn).
    exists c, (r ++ lit " " ++ str_of_int height). split; [|assumption].
    unfold dimensions_line. now rewrite Hc.
  - apply dimensions_header, plain_magic_of.
Qed.

(** C5 — the defect.  [loadpbm] skips the second line whatever it holds
    and takes the third one for the dimensions: a file without a comment
    line and a file with two comment lines are not loaded, a file with
    one comment line is. *)
Theorem loadpbm_skips_one_line :
  loadpbm (lit "a.pbm")
    (encode (lit "P1" ++ [NL] ++ lit "2 1" ++ [NL] ++ lit "01" ++ [NL]))
  = Raise ValueError
  /\ loadpbm (lit "a.pbm")
       (encode (lit "P1" ++ [NL] ++ lit "# a" ++ [NL] ++ lit "# b" ++ [NL]
                ++ lit "2 1" ++ [NL] ++ lit "01" ++ [NL]))
     = Raise ValueError
  /\ loadpbm (lit "a.pbm")
       (encode (lit "P1" ++ [NL] ++ lit "# a" ++ [NL] ++ lit "2 1" ++ [NL]
                ++ lit "01" ++ [NL]))
     = Ok (lit "P1", lit "01", 2, 1).
Proof. repeat split; reflexivity. Qed.

(** What the dimensions of a file are made of. *)
Lemma dimensions_inv contents w h :
  dimensions contents = Ok (w, h) ->
  exists dim fw fh,
    decode_ascii (third_line contents) = Ok dim
    /\ split dim SP = [fw; fh] /\ int fw 10 = Ok w /\ int fh 10 = Ok h.
Proof.
  unfold dimensions. intros H.
  destruct (decode_ascii (third_line contents)) as [dim|e]; [|discriminate H].
  cbn [bind] in H.
  destruct (split dim SP) as [|fw [|fh [|x l]]] eqn:Hs; try discriminate H.
  destruct (int fw 10) as [w'|e] eqn:Hw; [|discriminate H]. cbn [bind] in H.
  destruct (int fh 10) as [h'|e] eqn:Hh; [|discriminate H]. cbn [bind] in H.
  injection H as <- <-. exists dim, fw, fh. auto.
Qed.

Lemma decoded_magic line mode (magic : str) :
  decode_ascii line = Ok mode -> line <> encode magic ->
  str_eqb mode magic = false.
Proof.
  intros Hd Hn. destruct (str_eqb mode magic) eqn:E; [|reflexivity].
  apply str_eqb_eq in E. subst mode. apply decode_ascii_inv in Hd.
  contradiction.
Qed.

Lemma bytes_eqb_neq a b : bytes_eqb a b = false -> a <> b.
Proof.
  intros H Heq. apply bytes_eqb_eq in Heq. congruence.
Qed.

(** C4, amended — the body is not validated.  For every input with a
    comment line after the magic number and a dimensions line that
    declares [width] and [height], [loadpbm] does not compare the body
    with them: the body of a [P1] file is returned with its newline
    characters removed, whatever its length and its characters (only a
    byte that is not ASCII makes the decoding raise), and the body of a
    [P4] file is unpacked by [bin2ascii] at the declared width, whatever
    the number of its bytes. *)
Theorem loadpbm_body_unchecked filename contents width height :
  hd_error (second_line contents) = Some "#"%byte ->
  dimensions contents = Ok (width, height) ->
  loadpbm filename contents
  = if bytes_eqb (first_line contents) (encode (lit "P1")) then
      data <- decode_ascii (body_of contents) ;;
      Ok (lit "P1", join (split data NL), width, height)
    else if bytes_eqb (first_line contents) (encode (lit "P4")) then
      data <- bin2ascii (body_of contents) width ;;
      Ok (lit "P4", data, width, height)
    else
      _ <- decode_ascii (first_line contents) ;;
      Raise (PyException (lit "unknown format from file " ++ filename)).
Proof.
  intros _ Hdim.
  destruct (dimensions_inv _ _ _ Hdim) as (dim & fw & fh & H3 & Hs & Hw & Hh).
  destruct (bytes_eqb (first_line contents) (encode (lit "P1"))) eqn:E1.
  { apply bytes_eqb_eq in E1.
    rewrite (loadpbm_P1 _ _ _ _ _ E1 H3 Hs), Hw, Hh. reflexivity. }
  destruct (bytes_eqb (first_line contents) (encode (lit "P4"))) eqn:E4.
  { apply bytes_eqb_eq in E4.
    rewrite (loadpbm_P4 _ _ _ _ _ E4 H3 Hs), Hw, Hh. cbn [bind].
    destruct (bin2ascii (body_of contents) width); reflexivity. }
  apply bytes_eqb_neq in E1, E4.
  rewrite loadpbm_lines.
  destruct (decode_ascii (first_line contents)) as [mode|e] eqn:Hm;
    [|reflexivity].
  cbn [bind]. rewrite H3. cbn [bind]. rewrite Hs.
  rewrite (decoded_magic _ _ _ Hm E1), (decoded_magic _ _ _ Hm E4).
  reflexivity.
Qed.

Lemma loadpbm_body_unchecked_witness :
  loadpbm (lit "a.pbm")
    (encode (lit "P1" ++ [NL] ++ lit "# c" ++ [NL] ++ lit "10 10" ++ [NL]
             ++ repeat "1"%char 99 ++ [NL]))
  = Ok (lit "P1", repeat "1"%char 99, 10, 10).
Proof.
  exact (loadpbm_body_unchecked (lit "a.pbm")
           (encode (lit "P1" ++ [NL] ++ lit "# c" ++ [NL] ++ lit "10 10"
                    ++ [NL] ++ repeat "1"%char 99 ++ [NL]))
           10 10 eq_refl eq_refl).
Defined.

(** C4 as stated fails: an ascii body of 99 characters declared as 10x10
    is loaded, so is an ascii body with a character that is no bit, and
    so is a binary body of three bytes declared as 8x1. *)
Lemma mismatched_body_is_loaded :
  loadpbm (lit "a.pbm")
    (encode (lit "P1" ++ [NL] ++ lit "# c" ++ [NL] ++ lit "10 10" ++ [NL]
             ++ repeat "1"%char 99 ++ [NL]))
  = Ok (lit "P1", repeat "1"%char 99, 10, 10)
  /\ len (repeat "1"%char 99) <> 10 * 10
  /\ loadpbm (lit "a.pbm")
       (encode (lit "P1" ++ [NL] ++ lit "# c" ++ [NL] ++ lit "2 1" ++ [NL]
                ++ lit "0x" ++ [NL]))
     = Ok (lit "P1", lit "0x", 2, 1)
  /\ loadpbm (lit "a.pbm")
       (encode (lit "P4" ++ [NL] ++ lit "# c" ++ [NL] ++ lit "8 1" ++ [NL])
        ++ [xff; x00; x01])
     = Ok (lit "P4", lit "1111111100000001", 8, 1)
  /\ len [xff; x00; x01] <> 1 * ((8 + 7) / 8).
Proof.
  split; [reflexivity|]. split; [discriminate|]. split; [reflexivity|].
  split; [reflexivity|discriminate].
Qed.











(* ================================================================= *)
(** ** Further properties of the codec *)

(** *** Helper lemmas *)

Lemma slice_empty {A} (l : list A) a : 0 <= a -> slice l a a = [].
Proof.
  intros Ha. rewrite slice_nonneg by lia. apply skipn_all2.
  rewrite length_firstn. lia.
Qed.

Lemma range_negative_step stop step :
  step < 0 -> 0 <= stop -> range 0 stop step = Ok [].
Proof.
  intros Hs Hn. unfold range.
  destruct (Z.eqb_spec step 0); [lia|]. destruct (Z.ltb_spec 0 step); [lia|].
  assert ((0 - stop - step - 1) / - step <= 0).
  { apply Z.lt_succ_r. apply Z.div_lt_upper_bound; lia. }
  replace (Z.to_nat ((0 - stop - step - 1) / - step)) with 0%nat by lia.
  reflexivity.
Qed.

Lemma bitstring_bits (b : bytes) : bitstring (flat_map format_08b b).
Proof.
  rewrite flat_map_concat_map. apply bitstring_concat, Forall_map.
  apply Forall_forall. intros x _. apply bitstring_format_08b.
Qed.


(** [ascii2bin] never raises on a bit-string. *)
Lemma ascii2bin_total s width :
  1 <= width -> bitstring s -> exists packed, ascii2bin s width = Ok packed.
Proof.
  intros Hw Hs. rewrite ascii2bin_pieces by lia. cbv zeta.
  apply pack_bits_total. rewrite flat_map_concat_map.
  apply bitstring_concat, Forall_map.
  eapply Forall_impl; [|apply (bitstring_pieces s width 0 width Hs)].
  cbv beta. intros r Hr. apply bitstring_app. split; auto.
  apply bitstring_zero.
Qed.

(** The bits of what [ascii2bin] packs: every row, then its padding. *)
Lemma ascii2bin_rows_bits rows width :
  1 <= width -> Forall (fun row => len row = width) rows ->
  Forall bitstring rows ->
  exists b, ascii2bin (concat rows) width = Ok b
         /\ flat_map format_08b b
            = concat (map (fun row => row ++ format_zero (8 - width mod 8))
                          rows).
Proof.
  intros Hw Hrows Hbits.
  pose proof (Z.mod_pos_bound width 8 ltac:(lia)) as Hmod.
  rewrite ascii2bin_rows by (assumption || lia). cbv zeta.
  set (pad := format_zero (8 - width mod 8)).
  assert (Hp : Forall (fun row => len row = width + (8 - width mod 8))
                      (map (fun row => row ++ pad) rows)).
  { apply Forall_map. rewrite Forall_forall in *. intros r Hin.
    rewrite len_app, (Hrows r Hin). unfold pad.
    rewrite len_format_zero by lia. reflexivity. }
  rewrite flat_map_concat_map.
  apply pack_bits.
  - apply bitstring_concat, Forall_map. rewrite Forall_forall in *.
    intros r Hin. apply bitstring_app. split; auto. apply bitstring_zero.
  - rewrite (len_concat_blocks _ _ Hp), width_padded.
    rewrite Z.mul_assoc, (Z.mul_comm _ 8), <- Z.mul_assoc, Z.mul_comm.
    apply Z_mod_mult.
Qed.

(** Loading a file that starts with the header of [write_pbm]. *)
Lemma load_P1_header filename w h body :
  loadpbm filename (header (lit "P1") w h ++ body)
  = (data <- decode_ascii body ;;
     Ok (lit "P1", join (split data NL), w, h)).
Proof.
  destruct (header_read (lit "P1") w h body) as (H1 & _ & H3 & H4);
    [solve_plain|].
  assert (Hdim : decode_ascii (third_line (header (lit "P1") w h ++ body))
                 = Ok (dimensions_line w h)).
  { rewrite H3. apply decode_encode, plain_ascii, plain_dimensions_line. }
  rewrite (loadpbm_P1 _ _ _ _ _ H1 Hdim (split_dimensions_line w h)).
  rewrite H4, !int_str_of_int. reflexivity.
Qed.

Lemma load_P4_header filename w h b :
  loadpbm filename (header (lit "P4") w h ++ b)
  = (data <- bin2ascii b w ;; Ok (lit "P4", data, w, h)).
Proof.
  destruct (header_read (lit "P4") w h b) as (H1 & _ & H3 & H4);
    [solve_plain|].
  assert (Hdim : decode_ascii (third_line (header (lit "P4") w h ++ b))
                 = Ok (dimensions_line w h)).
  { rewrite H3. apply decode_encode, plain_ascii, plain_dimensions_line. }
  rewrite (loadpbm_P4 _ _ _ _ _ H1 Hdim (split_dimensions_line w h)).
  rewrite H4, !int_str_of_int. cbn [bind].
  destruct (bin2ascii b w); reflexivity.
Qed.

Lemma split_nonempty s sep : split s sep <> [].
Proof.
  destruct s as [|c r]; cbn [split]; [discriminate|].
  destruct (Ascii.eqb c sep); [discriminate|].
  destruct (split r sep); discriminate.
Qed.


(** *** [img2pbm_ascii] *)

Lemma img_loop pixels :
  exists cols,
    range 0 (len (image_data pixels)) 3 = Ok cols
    /\ flat_map
         (fun index =>
            str_of_int
              (if (1 <? Byte.to_N (nth (Z.to_nat index) (image_data pixels)
                                       x00))%N
               then 0 else 1))
         cols
       = map pixel_bit pixels.
Proof.
  induction pixels as [|[[r g] b] pixels IH].
  - exists []. split; reflexivity.
  - destruct IH as (cols' & Hc' & Hflat).
    change (image_data ((r, g, b) :: pixels))
      with (r :: g :: b :: image_data pixels).
    destruct (range_cons (len (r :: g :: b :: image_data pixels)) 3)
      as (cols & Hc & ->); [lia|unfold len; cbn [length]; lia|].
    replace (len (r :: g :: b :: image_data pixels) - 3)
      with (len (image_data pixels)) in Hc
      by (unfold len; cbn [length]; lia).
    rewrite Hc' in Hc. injection Hc as <-.
    eexists. split; [reflexivity|].
    cbn [flat_map map].
    assert (Hhead :
              str_of_int
                (if (1 <? Byte.to_N
                            (nth (Z.to_nat 0)
                                 (r :: g :: b :: image_data pixels) x00))%N
                 then 0 else 1)
              = [pixel_bit (r, g, b)]).
    { change (Z.to_nat 0) with 0%nat. cbn [nth pixel_bit].
      destruct (1 <? Byte.to_N r)%N; reflexivity. }
    rewrite Hhead. cbn [app]. f_equal.
    rewrite <- Hflat, !flat_map_concat_map, map_map. f_equal.
    apply map_ext_in. intros c Hin.
    pose proof (range_in_nonneg _ 3 _ _ eq_refl Hc' Hin).
    replace (Z.to_nat (3 + c)) with (S (S (S (Z.to_nat c)))) by lia.
    reflexivity.
Qed.

Lemma img2pbm_ascii_image pixels width :
  img2pbm_ascii (image_data pixels) width = Ok (map pixel_bit pixels).
Proof.
  unfold img2pbm_ascii.
  destruct (img_loop pixels) as (cols & -> & Hflat).
  cbn [bind]. rewrite fold_append. cbn [app]. now rewrite Hflat.
Qed.

(** X1 — [img2pbm_ascii] gives one bit a pixel, in the order of the
    pixels: [0] when the first channel of the pixel is above 1, [1]
    otherwise; the two other channels and the [width] play no part. *)
Theorem img2pbm_ascii_pixels pixels width :
  img2pbm_ascii (image_data pixels) width = Ok (map pixel_bit pixels).
Proof. apply img2pbm_ascii_image. Qed.

(** *** Widths that are not positive *)

Lemma ascii2bin_nonpositive_width_aux s width :
  width <= 0 ->
  ascii2bin s width = if width =? 0 then Raise ValueError else Ok [].
Proof.
  intros Hw. unfold ascii2bin.
  destruct (Z.eqb_spec width 0) as [->|Hn]; [reflexivity|].
  rewrite range_negative_step by (try apply len_nonneg; lia).
  reflexivity.
Qed.

(** X2 — [ascii2bin] and a width that is not positive: the width 0 makes
    [range] raise [ValueError], whatever the buffer; a negative width
    makes the loop over the rows empty, and the result is the empty
    [bytearray], whatever the buffer. *)
Theorem ascii2bin_nonpositive_width s width :
  width <= 0 ->
  ascii2bin s width = if width =? 0 then Raise ValueError else Ok [].
Proof. apply ascii2bin_nonpositive_width_aux. Qed.

Lemma ascii2bin_nonpositive_width_witness :
  ascii2bin (lit "1011") (-2) = Ok [].
Proof.
  apply (ascii2bin_nonpositive_width (lit "1011") (-2)). lia.
Defined.

(** X3 — [bin2ascii] and a width that is not positive: for the widths -8
    to -1 the step of the loop over the rows is 0 and [range] raises
    [ValueError]; for the width 0 and for the widths below -8 the result
    is the empty string, whatever the buffer. *)
Theorem bin2ascii_nonpositive_width b width :
  width <= 0 ->
  bin2ascii b width
  = if (-8 <=? width) && (width <? 0) then Raise ValueError else Ok [].
Proof.
  intros Hw.
  pose proof (width_padded width) as Hstep.
  pose proof (Z.div_mod width 8 ltac:(lia)) as Hdiv.
  pose proof (Z.mod_pos_bound width 8 ltac:(lia)) as Hmod.
  destruct (Z.leb_spec (-8) width) as [H8|H8];
    destruct (Z.ltb_spec width 0) as [H0|H0]; cbn [andb].
  - unfold bin2ascii, range.
    assert (Hz : width + (8 - width mod 8) = 0) by lia.
    rewrite Hz. reflexivity.
  - assert (width = 0) by lia. subst width.
    rewrite bin2ascii_pieces by lia. f_equal.
    unfold pieces. destruct (range 0 _ _) as [cols|e]; [|reflexivity].
    induction cols as [|c cols IH]; [reflexivity|].
    cbn [map concat]. rewrite IH.
    unfold slice. rewrite skipn_all2; [reflexivity|].
    rewrite length_firstn. lia.
  - unfold bin2ascii.
    rewrite range_negative_step by (try apply len_nonneg; lia).
    reflexivity.
  - lia.
Qed.

Lemma bin2ascii_nonpositive_width_witness :
  bin2ascii [xff; x0f] (-3) = Raise ValueError.
Proof.
  apply (bin2ascii_nonpositive_width [xff; x0f] (-3)). lia.
Defined.

(** *** What the repacking functions return *)

Lemma blocks_count {A} (rows : list (list A)) step n :
  0 < step -> Forall (fun row => len row = step) rows ->
  len (concat rows) = n * step -> Z.of_nat (length rows) = n.
Proof.
  intros Hs Hrows Hlen. rewrite (len_concat_blocks _ _ Hrows) in Hlen. nia.
Qed.

Lemma bin2ascii_whole_rows_aux b width n :
  0 <= width -> len b = n * (width / 8 + 1) ->
  exists s, bin2ascii b width = Ok s /\ bitstring s /\ len s = n * width.
Proof.
  intros Hw Hlen.
  pose proof (Z.mod_pos_bound width 8 ltac:(lia)) as Hmod.
  pose proof (Z.div_pos width 8 Hw ltac:(lia)) as Hdiv.
  set (step := width + (8 - width mod 8)).
  assert (Hbits : len (flat_map format_08b b) = n * step).
  { rewrite len_bits, Hlen. unfold step. rewrite width_padded. lia. }
  destruct (blocks_exact step (flat_map format_08b b)) as (brows & Hb & Hrows).
  - unfold step. lia.
  - rewrite Hbits. apply Z_mod_mult.
  - exists (concat (map (firstn (Z.to_nat width)) brows)).
    split; [now apply bin2ascii_rows|].
    assert (Hcount : Z.of_nat (length brows) = n).
    { apply (blocks_count brows step); [unfold step; lia|assumption|].
      now rewrite <- Hb. }
    split.
    + pose proof (bitstring_bits b) as Hbs. rewrite Hb in Hbs.
      apply bitstring_concat in Hbs.
      apply bitstring_concat, Forall_map.
      eapply Forall_impl; [|exact Hbs]. apply bitstring_firstn.
    + rewrite (len_concat_blocks _ width).
      * rewrite length_map. lia.
      * apply Forall_map. rewrite Forall_forall in *. intros r Hin.
        specialize (Hrows r Hin). unfold len in *. rewrite length_firstn.
        unfold step in Hrows. lia.
Qed.

(** X4 — What [bin2ascii] returns for whole rows: for a width of at least
    0 and a buffer of [n] rows of [width / 8 + 1] bytes, a bit-string of
    [n * width] characters. *)
Theorem bin2ascii_whole_rows b width n :
  0 <= width -> len b = n * (width / 8 + 1) ->
  exists s, bin2ascii b width = Ok s /\ bitstring s /\ len s = n * width.
Proof. apply bin2ascii_whole_rows_aux. Qed.

Lemma bin2ascii_whole_rows_witness :
  exists s, bin2ascii [xa0; x40] 3 = Ok s /\ bitstring s /\ len s = 2 * 3.
Proof.
  apply (bin2ascii_whole_rows [xa0; x40] 3 2); [lia | reflexivity].
Defined.

Lemma padding_of_row (row pad : str) width step :
  len row = width -> len pad = step - width -> 0 <= width ->
  skipn (Z.to_nat width) (firstn (Z.to_nat step) (row ++ pad)) = pad.
Proof.
  intros Hr Hp Hw. unfold len in *.
  rewrite firstn_all2 by (rewrite length_app; lia).
  rewrite skipn_app, skipn_all2 by lia.
  replace (Z.to_nat width - length row)%nat with 0%nat by lia.
  reflexivity.
Qed.

Lemma zeros_all_zero k : Forall (eq "0"%char) (format_zero k).
Proof.
  unfold format_zero. induction (Z.to_nat (Z.max 1 k)); simpl; constructor;
    auto.
Qed.

Lemma ascii2bin_whole_rows_aux rows width :
  1 <= width -> Forall (fun row => len row = width) rows ->
  Forall bitstring rows ->
  exists b,
    ascii2bin (concat rows) width = Ok b
    /\ len b = Z.of_nat (length rows) * (width / 8 + 1)
    /\ flat_map format_08b b
       = concat (map (fun row => row ++ format_zero (8 - width mod 8)) rows)
    /\ zero_padded b width.
Proof.
  intros Hw Hrows Hbits.
  pose proof (Z.mod_pos_bound width 8 ltac:(lia)) as Hmod.
  destruct (ascii2bin_rows_bits rows width Hw Hrows Hbits) as (b & Ha & Hb).
  set (pad := format_zero (8 - width mod 8)) in *.
  assert (Hp : Forall (fun row => len row = width + (8 - width mod 8))
                      (map (fun row => row ++ pad) rows)).
  { apply Forall_map. rewrite Forall_forall in *. intros r Hin.
    rewrite len_app, (Hrows r Hin). unfold pad.
    rewrite len_format_zero by lia. reflexivity. }
  exists b. split; [assumption|]. split; [|split; [assumption|]].
  - pose proof (f_equal len Hb) as Hl.
    rewrite len_bits, (len_concat_blocks _ _ Hp), length_map,
      width_padded in Hl. lia.
  - unfold zero_padded, row_paddings. rewrite Hb.
    rewrite <- (app_nil_r (concat _)).
    rewrite pieces_blocks with (t := [])
      by first [assumption | unfold len; cbn [length]; lia].
    cbn [last_piece map]. rewrite app_nil_r, map_map.
    apply Forall_map, Forall_forall. intros r Hin.
    rewrite Forall_forall in Hrows.
    rewrite (padding_of_row r pad width).
    + apply zeros_all_zero.
    + now apply Hrows.
    + unfold pad. rewrite len_format_zero by lia. lia.
    + lia.
Qed.

(** X5 — What [ascii2bin] returns for whole rows: for a width of at least
    1 and [n] rows of [width] bits, a buffer of [n * (width / 8 + 1)]
    bytes whose bits are the rows, each followed by [8 - width % 8] zero
    bits; so its padding bits are zero. *)
Theorem ascii2bin_whole_rows rows width :
  1 <= width -> Forall (fun row => len row = width) rows ->
  Forall bitstring rows ->
  exists b,
    ascii2bin (concat rows) width = Ok b
    /\ len b = Z.of_nat (length rows) * (width / 8 + 1)
    /\ flat_map format_08b b
       = concat (map (fun row => row ++ format_zero (8 - width mod 8)) rows)
    /\ zero_padded b width.
Proof. apply ascii2bin_whole_rows_aux. Qed.

Lemma ascii2bin_whole_rows_witness :
  exists b,
    ascii2bin (concat [lit "101"; lit "010"]) 3 = Ok b
    /\ len b = Z.of_nat (length [lit "101"; lit "010"]) * (3 / 8 + 1)
    /\ flat_map format_08b b
       = concat (map (fun row => row ++ format_zero (8 - 3 mod 8))
                     [lit "101"; lit "010"])
    /\ zero_padded b 3.
Proof.
  apply (ascii2bin_whole_rows [lit "101"; lit "010"] 3);
    [lia | repeat constructor
    | constructor; [solve_bits | constructor; [solve_bits | constructor]]].
Defined.

(** *** Characters that are no bits *)

Lemma foreign_not c c' :
  foreign_char c -> In c' (lit "+-_bB") \/ digit_value c' < 2 \/ is_space c' = true ->
  c <> c'.
Proof.
  intros (Hs & Hd & Hn) H ->. destruct H as [H|[H|H]].
  - contradiction.
  - lia.
  - congruence.
Qed.

Lemma in_tail_neq {A} (c x : A) (l : list A) : In c (x :: l) -> c <> x -> In c l.
Proof. intros [->|H] Hn; [contradiction|assumption]. Qed.

Lemma foreign_skip_spaces c t :
  foreign_char c -> In c t -> In c (skip_spaces t).
Proof.
  intros Hc. induction t as [|x t IH]; intros Hin; [assumption|].
  cbn [skip_spaces]. destruct (is_space x) eqn:E; [|assumption].
  apply IH. apply (in_tail_neq c x); [assumption|].
  apply foreign_not; auto.
Qed.

Lemma foreign_strip_sign c t :
  foreign_char c -> In c t -> In c (snd (strip_sign t)).
Proof.
  intros Hc Hin. destruct t as [|x t]; [assumption|]. cbn [strip_sign].
  destruct (Ascii.eqb_spec x "+") as [->|_];
    [|destruct (Ascii.eqb_spec x "-") as [->|_]]; cbn [snd]; try assumption;
    (apply (in_tail_neq c _ t Hin), foreign_not; [assumption|left; cbn; tauto]).
Qed.

Lemma foreign_strip_prefix c t :
  foreign_char c -> In c t -> In c (strip_prefix 2 t).
Proof.
  intros Hc Hin. destruct t as [|z [|b r]]; try assumption.
  cbn [strip_prefix]. change (2 =? 2) with true. cbn [andb].
  destruct (Ascii.eqb_spec z "0") as [->|_]; [|assumption]. cbn [andb].
  assert (Hr : Ascii.eqb b "b" || Ascii.eqb b "B" = true -> In c r).
  { intros Hb. apply orb_true_iff in Hb.
    apply (in_tail_neq c b).
    - apply (in_tail_neq c "0"%char); [assumption|].
      apply foreign_not; [assumption|right; left; reflexivity].
    - apply foreign_not; [assumption|left].
      destruct Hb as [Hb|Hb]; apply Ascii.eqb_eq in Hb; subst b; cbn; tauto. }
  destruct (Ascii.eqb b "b" || Ascii.eqb b "B"); [|assumption].
  specialize (Hr eq_refl). destruct r as [|u r']; [assumption|].
  destruct (Ascii.eqb_spec u "_") as [->|_]; [|assumption].
  apply (in_tail_neq c _ r' Hr), foreign_not; [assumption|left; cbn; tauto].
Qed.

Lemma foreign_scan c t prev acc n v n' rest :
  foreign_char c -> In c t ->
  scan_digits 2 t prev acc n = Some (v, n', rest) -> In c rest.
Proof.
  intros Hc. revert prev acc n.
  induction t as [|x t IH]; intros prev acc n Hin Hscan; [contradiction|].
  cbn [scan_digits] in Hscan.
  destruct (Ascii.eqb_spec x "_") as [->|_].
  - destruct prev; [discriminate|].
    assert (Hn : c <> "_"%char)
      by (apply foreign_not; [assumption|left; cbn; tauto]).
    apply (IH _ _ _ (in_tail_neq c _ t Hin Hn) Hscan).
  - destruct (Z.ltb_spec (digit_value x) 2) as [Hd|Hd].
    + assert (Hn : c <> x) by (apply foreign_not; auto).
      apply (IH _ _ _ (in_tail_neq c _ t Hin Hn) Hscan).
    + destruct prev; [discriminate|]. injection Hscan as _ _ <-. assumption.
Qed.

(** [int(s, 2)] raises on a string with a foreign character. *)
Lemma int_foreign c t :
  foreign_char c -> In c t -> int t 2 = Raise ValueError.
Proof.
  intros Hc Hin. unfold int.
  pose proof (foreign_strip_sign c _ Hc (foreign_skip_spaces c t Hc Hin)) as H1.
  destruct (strip_sign (skip_spaces t)) as [sign t1]. cbn [snd] in H1.
  pose proof (foreign_strip_prefix c _ Hc H1) as H2.
  destruct (strip_prefix 2 t1) as [|x t2] eqn:E; [reflexivity|].
  destruct (Ascii.eqb x "_"); [reflexivity|].
  destruct (scan_digits 2 (x :: t2) false 0 0) as [[[v [|n]] rest]|] eqn:Hs;
    try reflexivity.
  pose proof (foreign_skip_spaces c rest Hc
                (foreign_scan c _ _ _ _ _ _ _ Hc H2 Hs)) as H3.
  destruct (skip_spaces rest); [contradiction|reflexivity].
Qed.

Lemma int_raises s base e : int s base = Raise e -> e = ValueError.
Proof.
  unfold int. destruct (strip_sign (skip_spaces s)) as [sign s'].
  destruct (strip_prefix base s') as [|c r]; [congruence|].
  destruct (Ascii.eqb c "_"); [congruence|].
  destruct (scan_digits base (c :: r) false 0 0) as [[[v [|n]] rest]|];
    try congruence.
  destruct (skip_spaces rest); congruence.
Qed.

Lemma bytearray_append_raises acc v e :
  bytearray_append acc v = Raise e -> e = ValueError.
Proof.
  unfold bytearray_append. destruct (_ && _); [|congruence].
  destruct (Byte.of_N _); congruence.
Qed.

Lemma pack_chunks_raise chunks acc :
  Exists (fun c => int c 2 = Raise ValueError) chunks ->
  pack_chunks chunks acc = Raise ValueError.
Proof.
  intros H. revert acc. induction H as [c cs Hc|c cs _ IH]; intros acc;
    cbn [pack_chunks].
  - now rewrite Hc.
  - destruct (int c 2) as [v|e] eqn:Hi.
    + cbn [bind]. destruct (bytearray_append acc v) as [acc'|e] eqn:Ha.
      * cbn [bind]. apply IH.
      * apply bytearray_append_raises in Ha. now subst e.
    + apply int_raises in Hi. now subst e.
Qed.

(** X6 — [ascii2bin] raises [ValueError] on a buffer that holds a
    character which is no bit, no blank (the ASCII blanks of codes 9 to
    13 and 32, and the Unicode blanks U+0085 and U+00A0), no sign, no
    underscore and none of the letters [b] and [B] (the characters
    [int(byte, 2)] takes in some position), for every width of at least
    1. *)
Theorem ascii2bin_foreign_character s width :
  1 <= width -> Exists foreign_char s ->
  ascii2bin s width = Raise ValueError.
Proof.
  intros Hw Hex. apply Exists_exists in Hex. destruct Hex as (c & Hin & Hc).
  rewrite ascii2bin_pieces by lia. cbv zeta.
  set (rbuffer := flat_map _ _).
  assert (Hr : In c rbuffer).
  { unfold rbuffer. apply in_flat_map.
    destruct (pieces_cover s width ltac:(lia)) as [Hcat _].
    rewrite <- Hcat in Hin. apply in_concat in Hin.
    destruct Hin as (p & Hp & Hcp). exists p. split; [assumption|].
    apply in_or_app. now left. }
  destruct (blocks_exist 8 rbuffer ltac:(lia)) as (chunks & t & Heq & Hch & Ht).
  rewrite (pack_loop_all _ chunks t Heq Hch Ht).
  apply pack_chunks_raise, Exists_exists.
  rewrite Heq in Hr. apply in_app_or in Hr. destruct Hr as [Hr|Hr].
  - apply in_concat in Hr. destruct Hr as (ch & Hch' & Hcc).
    exists ch. split; [apply in_or_app; now left|].
    now apply (int_foreign c).
  - exists t. split; [|now apply (int_foreign c)].
    apply in_or_app. right. destruct t; [contradiction|now left].
Qed.

Lemma ascii2bin_foreign_character_witness :
  ascii2bin (lit "10x1") 2 = Raise ValueError.
Proof.
  apply (ascii2bin_foreign_character (lit "10x1") 2); [lia|].
  apply Exists_cons_tl, Exists_cons_tl, Exists_cons_hd.
  split; [reflexivity|]. split; [discriminate|].
  cbn. intros H. repeat (destruct H as [H|H]; [discriminate H|]). exact H.
Defined.

(** *** [loadpbm] *)

Lemma readline_line (l rest : bytes) :
  ~ In "010"%byte l ->
  readline (l ++ "010"%byte :: rest) = (l ++ ["010"%byte], rest).
Proof.
  induction l as [|x l IH]; intros Hn; [reflexivity|].
  cbn [app readline].
  destruct (Byte.eqb x "010") eqn:E.
  - apply Byte.byte_dec_bl in E. exfalso. apply Hn. now left.
  - rewrite IH; [reflexivity|]. intros Hin. apply Hn. now right.
Qed.

(** X7 — [loadpbm] does not look at the second line: two files that
    differ in their second line only are loaded alike, be the line a
    comment or not. *)
Theorem loadpbm_second_line_ignored filename line1 line2 line2' rest :
  ~ In "010"%byte line1 -> ~ In "010"%byte line2 -> ~ In "010"%byte line2' ->
  loadpbm filename (line1 ++ "010"%byte :: line2 ++ "010"%byte :: rest)
  = loadpbm filename (line1 ++ "010"%byte :: line2' ++ "010"%byte :: rest).
Proof.
  intros H1 H2 H2'. rewrite !loadpbm_lines.
  unfold first_line, third_line, body_of.
  rewrite !(readline_line line1) by assumption. cbn [fst snd].
  rewrite (readline_line line2), (readline_line line2') by assumption.
  reflexivity.
Qed.

Lemma loadpbm_second_line_ignored_witness :
  loadpbm (lit "a.pbm")
    (encode (lit "P1") ++ "010"%byte :: encode (lit "# one") ++ "010"%byte
     :: encode (lit "2 1" ++ [NL] ++ lit "01" ++ [NL]))
  = loadpbm (lit "a.pbm")
      (encode (lit "P1") ++ "010"%byte :: encode (lit "3 3") ++ "010"%byte
       :: encode (lit "2 1" ++ [NL] ++ lit "01" ++ [NL])).
Proof.
  apply (loadpbm_second_line_ignored (lit "a.pbm") (encode (lit "P1"))
           (encode (lit "# one")) (encode (lit "3 3")));
    cbn; intros H; repeat (destruct H as [H|H]; [discriminate H|]); exact H.
Defined.




(** X9 — Load, then write.  A binary file of the form [write_pbm] gives
    it, with a width of at least 1, a body of whole rows of
    [width / 8 + 1] bytes and zero padding bits, is loaded by [loadpbm],
    and [convert] writes the loaded bits back, in binary mode, as the
    same file, byte for byte. *)
Theorem load_then_write_binary filename b width height :
  1 <= width -> (len b) mod (width / 8 + 1) = 0 -> zero_padded b width ->
  exists bits,
    loadpbm filename (header (lit "P4") width height ++ b)
    = Ok (lit "P4", bits, width, height)
    /\ convert_buffer bits width height (lit "bin")
       = Ok (Some (header (lit "P4") width height ++ b)).
Proof.
  intros Hw Hm Hz.
  pose proof (Z.div_pos width 8 ltac:(lia) ltac:(lia)) as Hdiv.
  destruct (ascii2bin_bin2ascii b width Hw) as (bits & Hb & Ha);
    [|assumption|].
  - rewrite len_bits, width_padded.
    apply Z.mod_divide in Hm; [|lia]. destruct Hm as [k ->].
    rewrite Z.mul_assoc, (Z.mul_comm 8 k), <- Z.mul_assoc.
    apply Z_mod_mult.
  - exists bits. split.
    + rewrite load_P4_header, Hb. reflexivity.
    + unfold convert_buffer. rewrite Ha. cbn [bind].
      change (str_eqb (lit "bin") (lit "ascii")) with false.
      change (str_eqb (lit "bin") (lit "bin")) with true. cbv iota.
      now rewrite write_pbm_bin.
Qed.

Lemma load_then_write_binary_witness :
  exists bits,
    loadpbm (lit "a.pbm") (header (lit "P4") 3 2 ++ [xa0; x40])
    = Ok (lit "P4", bits, 3, 2)
    /\ convert_buffer bits 3 2 (lit "bin")
       = Ok (Some (header (lit "P4") 3 2 ++ [xa0; x40])).
Proof.
  apply (load_then_write_binary (lit "a.pbm") [xa0; x40] 3 2);
    [lia | reflexivity | repeat constructor].
Defined.

(** *** [convert] and [write_pbm] *)

Lemma convert_buffer_ascii filename bits width height :
  1 <= width -> bitstring bits ->
  exists f, convert_buffer bits width height (lit "ascii") = Ok (Some f)
         /\ loadpbm filename f = Ok (lit "P1", bits, width, height).
Proof.
  intros Hw Hbits.
  destruct (ascii2bin_total bits width Hw Hbits) as (b & Ha).
  unfold convert_buffer. rewrite Ha. cbn [bind].
  change (str_eqb (lit "ascii") (lit "ascii")) with true. cbv iota.
  rewrite write_pbm_ascii by assumption.
  eexists. split; [reflexivity|]. rewrite load_P1_header.
  destruct (pieces_cover bits (Z.min 70 width) ltac:(lia)) as [Hcat _].
  destruct (lines_body (pieces bits (Z.min 70 width) 0 (Z.min 70 width)))
    as [Hdec Hjoin].
  { apply bitstring_concat. now rewrite Hcat. }
  rewrite Hdec. cbn [bind]. now rewrite Hjoin, Hcat.
Qed.

Lemma convert_buffer_bin filename bits width height :
  1 <= width -> bitstring bits -> (len bits) mod width = 0 ->
  exists f, convert_buffer bits width height (lit "bin") = Ok (Some f)
         /\ loadpbm filename f = Ok (lit "P4", bits, width, height).
Proof.
  intros Hw Hbits Hm.
  destruct (bin2ascii_ascii2bin bits width Hw Hbits Hm) as (b & Ha & Hb).
  unfold convert_buffer. rewrite Ha. cbn [bind].
  change (str_eqb (lit "bin") (lit "ascii")) with false.
  change (str_eqb (lit "bin") (lit "bin")) with true. cbv iota.
  rewrite write_pbm_bin. eexists. split; [reflexivity|].
  rewrite load_P4_header, Hb. reflexivity.
Qed.

Lemma bitstring_pixels pixels : bitstring (map pixel_bit pixels).
Proof.
  apply Forall_map, Forall_forall. intros [[r g] b] _. cbn [pixel_bit].
  destruct (1 <? Byte.to_N r)%N; [left|right]; reflexivity.
Qed.

(** X10 — From the image to the file and back.  For a width of at least
    1 and the data of an image of [width * height] pixels, the file
    [convert] writes, in ascii mode and in binary mode, is loaded by
    [loadpbm] as the bits of the pixels, in their order, with the same
    dimensions. *)
Theorem convert_image_roundtrip filename pixels width height :
  1 <= width -> len pixels = width * height ->
  (exists f, convert (image_data pixels) width height (lit "ascii")
             = Ok (Some f)
             /\ loadpbm filename f
                = Ok (lit "P1", map pixel_bit pixels, width, height))
  /\ (exists f, convert (image_data pixels) width height (lit "bin")
                = Ok (Some f)
                /\ loadpbm filename f
                   = Ok (lit "P4", map pixel_bit pixels, width, height)).
Proof.
  intros Hw Hlen. unfold convert. rewrite img2pbm_ascii_image. cbn [bind].
  split.
  - apply convert_buffer_ascii; [assumption|apply bitstring_pixels].
  - apply convert_buffer_bin; [assumption|apply bitstring_pixels|].
    unfold len in *. rewrite length_map, Hlen, Z.mul_comm. apply Z_mod_mult.
Qed.

Lemma convert_image_roundtrip_witness :
  (exists f, convert (image_data [(xff, xff, xff); (x00, x00, x00)]) 2 1
               (lit "ascii") = Ok (Some f)
             /\ loadpbm (lit "a.pbm") f
                = Ok (lit "P1",
                      map pixel_bit [(xff, xff, xff); (x00, x00, x00)], 2, 1))
  /\ (exists f, convert (image_data [(xff, xff, xff); (x00, x00, x00)]) 2 1
                  (lit "bin") = Ok (Some f)
                /\ loadpbm (lit "a.pbm") f
                   = Ok (lit "P4",
                         map pixel_bit [(xff, xff, xff); (x00, x00, x00)],
                         2, 1)).
Proof.
  apply (convert_image_roundtrip (lit "a.pbm")
           [(xff, xff, xff); (x00, x00, x00)] 2 1); [lia | reflexivity].
Defined.

(** X11 — The ascii round trip needs no length: for a width of at least
    1, the ascii file [convert] writes for a bit-string is loaded back as
    this bit-string, whatever its length and whatever the height, also
    when the length is not [width * height]. *)
Theorem ascii_roundtrip_any_length filename bits width height :
  1 <= width -> bitstring bits ->
  exists f, convert_buffer bits width height (lit "ascii") = Ok (Some f)
         /\ loadpbm filename f = Ok (lit "P1", bits, width, height).
Proof. apply convert_buffer_ascii. Qed.

Lemma ascii_roundtrip_any_length_witness :
  exists f, convert_buffer (lit "10101") 3 7 (lit "ascii") = Ok (Some f)
         /\ loadpbm (lit "a.pbm") f = Ok (lit "P1", lit "10101", 3, 7).
Proof.
  apply (ascii_roundtrip_any_length (lit "a.pbm") (lit "10101") 3 7);
    [lia | solve_bits].
Defined.



Lemma write_pbm_text s w h mode :
  1 <= w -> str_eqb mode (lit "bin") = false ->
  write_pbm (PyStr s) w h mode
  = (header (magic_of mode) w h
     ++ encode (concat (map (fun l => l ++ [NL])
                            (pieces s (Z.min 70 w) 0 (Z.min 70 w)))),
     Ok tt).
Proof.
  intros Hw Hmode. unfold write_pbm, header, comment_line, pieces, magic_of.
  rewrite Hmode.
  assert (Hll : (if 70 <=? w then 70 else w) = Z.min 70 w)
    by (destruct (Z.leb_spec 70 w); lia).
  rewrite Hll. cbn [buffer_len app].
  destruct (range_ok (len s) (Z.min 70 w)) as (cols & ->); [lia|].
  rewrite fold_append.
  assert (Hbody : flat_map (fun col => encode (slice s col (col + Z.min 70 w)
                                               ++ [NL])) cols
                  = encode (concat (map (fun l => l ++ [NL])
                                        (map (fun col => slice s (col + 0)
                                                           (col + Z.min 70 w))
                                             cols)))).
  { rewrite encode_concat, !map_map, flat_map_concat_map. f_equal.
    apply map_ext. intros c. now rewrite Z.add_0_r. }
  rewrite Hbody. destruct (str_eqb mode (lit "ascii")); reflexivity.
Qed.

(** X13 — A buffer of the wrong type.  In binary mode a [str] buffer, and
    in the other modes a [bytearray] that is not empty (for a width of at
    least 1), make [write_pbm] raise [TypeError]; the header is written
    by then, so the file is left with the header and no body. *)
Theorem write_pbm_wrong_buffer s b width height mode :
  1 <= width -> b <> [] -> str_eqb mode (lit "bin") = false ->
  write_pbm (PyStr s) width height (lit "bin")
  = (header (lit "P4") width height, Raise TypeError)
  /\ write_pbm (PyBytes b) width height mode
     = (header (magic_of mode) width height, Raise TypeError).
Proof.
  intros Hw Hb Hmode. split; [reflexivity|].
  unfold write_pbm, header, comment_line, magic_of. rewrite Hmode.
  cbn [buffer_len app].
  destruct (range_cons (len b) (if 70 <=? width then 70 else width))
    as (cols & _ & ->).
  - destruct (Z.leb_spec 70 width); lia.
  - destruct b; [contradiction|]. unfold len. cbn [length]. lia.
  - destruct (str_eqb mode (lit "ascii")); reflexivity.
Qed.

Lemma write_pbm_wrong_buffer_witness :
  write_pbm (PyStr (lit "1010")) 2 2 (lit "bin")
  = (header (lit "P4") 2 2, Raise TypeError)
  /\ write_pbm (PyBytes [x80; x80]) 2 2 (lit "ascii")
     = (header (magic_of (lit "ascii")) 2 2, Raise TypeError).
Proof.
  apply (write_pbm_wrong_buffer (lit "1010") [x80; x80] 2 2 (lit "ascii"));
    [lia | discriminate | reflexivity].
Defined.

(** X14 — A mode that is neither [ascii] nor [bin].  [write_pbm] then
    writes the magic number [P4] followed by the text body, the buffer
    cut into lines, as in ascii mode; [convert] writes no file at all for
    such a mode. *)
Theorem other_mode s width height mode :
  1 <= width -> bitstring s ->
  str_eqb mode (lit "ascii") = false -> str_eqb mode (lit "bin") = false ->
  write_pbm (PyStr s) width height mode
  = (header (lit "P4") width height
     ++ encode (concat (map (fun l => l ++ [NL])
                            (pieces s (Z.min 70 width) 0 (Z.min 70 width)))),
     Ok tt)
  /\ convert_buffer s width height mode = Ok None.
Proof.
  intros Hw Hs Ha Hb. split.
  - rewrite write_pbm_text by assumption. unfold magic_of. now rewrite Ha.
  - unfold convert_buffer.
    destruct (ascii2bin_total s width Hw Hs) as (b & ->). cbn [bind].
    now rewrite Ha, Hb.
Qed.

Lemma other_mode_witness :
  write_pbm (PyStr (lit "1010")) 2 2 (lit "binary")
  = (header (lit "P4") 2 2
     ++ encode (concat (map (fun l => l ++ [NL])
                            (pieces (lit "1010") (Z.min 70 2) 0
                                    (Z.min 70 2)))),
     Ok tt)
  /\ convert_buffer (lit "1010") 2 2 (lit "binary") = Ok None.
Proof.
  apply (other_mode (lit "1010") 2 2 (lit "binary"));
    [lia | solve_bits | reflexivity | reflexivity].
Defined.

(** *** The drivers *)

Lemma split_two p f sep :
  exists g g' gs, split (p ++ sep :: f) sep = g :: g' :: gs.
Proof.
  induction p as [|c p IH]; cbn [app split].
  - rewrite Ascii.eqb_refl. pose proof (split_nonempty f sep).
    destruct (split f sep) as [|g' gs]; [contradiction|]. now exists [], g', gs.
  - destruct IH as (g & g' & gs & ->).
    destruct (Ascii.eqb c sep); [now exists [], g, (g' :: gs)|].
    now exists (c :: g), g', gs.
Qed.

Lemma last_split_suffix p f sep :
  ~ In sep f -> last (split (p ++ sep :: f) sep) [] = f.
Proof.
  intros Hf. induction p as [|c p IH]; cbn [app split].
  - rewrite Ascii.eqb_refl, split_whole by assumption. reflexivity.
  - destruct (split_two p f sep) as (g & g' & gs & Hs). rewrite Hs in *.
    destruct (Ascii.eqb c sep); exact IH.
Qed.

Lemma last_separator (s : str) sep :
  ~ In sep s \/ exists p f, s = p ++ sep :: f /\ ~ In sep f.
Proof.
  induction s as [|c s [IH|(p & f & -> & Hf)]].
  - left. intros [].
  - destruct (Ascii.eqb_spec c sep) as [->|Hn].
    + right. now exists [], s.
    + left. intros [H|H]; [now apply Hn|now apply IH].
  - right. now exists (c :: p), f.
Qed.

(** X15 — The files [convert_dir] converts are those whose name is [svg]
    or ends with [.svg]: the test is on the part of the name after its
    last dot, and on the whole name when it has no dot. *)
Theorem is_svg_names filename :
  is_svg filename = true
  <-> filename = lit "svg" \/ exists stem, filename = stem ++ lit ".svg".
Proof.
  unfold is_svg. rewrite str_eqb_eq. split.
  - intros H.
    destruct (last_separator filename "."%char) as [Hn|(p & f & -> & Hf)].
    + left. now rewrite split_whole in H by assumption.
    + right. exists p. rewrite last_split_suffix in H by assumption.
      now subst f.
  - intros [->|(stem & ->)]; [reflexivity|].
    apply (last_split_suffix stem (lit "svg")).
    cbn. intros H. repeat (destruct H as [H|H]; [discriminate H|]). exact H.
Qed.

(** X16 — The name of the file written is the part of the name of the
    input before its first dot: a name without a dot is kept whole, and
    two names that agree up to their first dot give the same output
    name. *)
Theorem filename_out_first_dot stem rest :
  ~ In "."%char stem ->
  filename_out stem = stem
  /\ filename_out (stem ++ "."%char :: rest) = stem.
Proof.
  intros H. unfold filename_out.
  now rewrite split_whole, split_field by assumption.
Qed.

Lemma filename_out_first_dot_witness :
  filename_out (lit "car") = lit "car"
  /\ filename_out (lit "car" ++ "."%char :: lit "v2.svg") = lit "car".
Proof.
  apply (filename_out_first_dot (lit "car") (lit "v2.svg")).
  cbn. intros H. repeat (destruct H as [H|H]; [discriminate H|]). exact H.
Defined.

Lemma convert_total imgdata width height mode :
  1 <= width -> mode = lit "ascii" \/ mode = lit "bin" ->
  exists f, convert imgdata width height mode = Ok (Some f).
Proof.
  intros Hw Hmode. unfold convert.
  destruct (img2pbm_ascii_bits imgdata width) as (s & -> & Hs). cbn [bind].
  unfold convert_buffer.
  destruct (ascii2bin_total s width Hw Hs) as (b & ->). cbn [bind].
  destruct Hmode as [-> | ->].
  - change (str_eqb (lit "ascii") (lit "ascii")) with true. cbv iota.
    rewrite write_pbm_text by (assumption || reflexivity). eauto.
  - change (str_eqb (lit "bin") (lit "ascii")) with false.
    change (str_eqb (lit "bin") (lit "bin")) with true. cbv iota.
    rewrite write_pbm_bin. eauto.
Qed.

(** X17 — [convert_dir] writes one file for every name of the directory
    that passes the [svg] test, in the order of the listing, under the
    name [convert] derives from it, and nothing for the other names:
    this for a width of at least 1, the modes [ascii] and [bin], and a
    rasteriser that raises on none of the names that pass the test. *)
Theorem convert_dir_writes rasterize files width height mode :
  1 <= width -> mode = lit "ascii" \/ mode = lit "bin" ->
  (forall filename, In filename files -> is_svg filename = true ->
                    exists imgdata,
                      rasterize filename width height = Ok imgdata) ->
  exists written,
    convert_dir rasterize files width height mode = (written, Ok tt)
    /\ map fst written = map filename_out (filter is_svg files).
Proof.
  intros Hw Hmode. induction files as [|filename files IH]; intros Hr.
  - exists []. split; reflexivity.
  - destruct IH as (written & Hc & Hnames).
    { intros fn Hin. apply Hr. now right. }
    cbn [convert_dir filter]. destruct (is_svg filename) eqn:E.
    + destruct (Hr filename (or_introl eq_refl) E) as (imgdata & Himg).
      unfold convert_file. rewrite Himg. cbn [bind].
      destruct (convert_total imgdata width height mode Hw Hmode) as (f & ->).
      cbn [bind option_map]. rewrite Hc.
      eexists. split; [reflexivity|]. cbn [map fst]. now rewrite Hnames.
    + exists written. now split.
Qed.

Lemma convert_dir_writes_witness :
  exists written,
    convert_dir (fun _ _ _ => Ok [xff; xff; xff; x00; x00; x00])
                [lit "a.svg"; lit "notes.txt"] 2 1 (lit "bin")
    = (written, Ok tt)
    /\ map fst written
       = map filename_out (filter is_svg [lit "a.svg"; lit "notes.txt"]).
Proof.
  apply (convert_dir_writes (fun _ _ _ => Ok [xff; xff; xff; x00; x00; x00])
           [lit "a.svg"; lit "notes.txt"] 2 1 (lit "bin"));
    [lia | now right | intros; eauto].
Defined.

(** X18 — An exception ends [convert_dir]: when the rasteriser raises on
    a name that passes the [svg] test, the files written for the names
    before it stay, the names after it in the listing are not converted,
    and the call ends with the exception raised. *)
Theorem convert_dir_stops rasterize before written filename files width
        height mode e :
  convert_dir rasterize before width height mode = (written, Ok tt) ->
  is_svg filename = true -> rasterize filename width height = Raise e ->
  convert_dir rasterize (before ++ filename :: files) width height mode
  = (written, Raise e).
Proof.
  intros Hb Hsvg Hr. revert written Hb.
  induction before as [|name before IH]; intros written Hb.
  - cbn [convert_dir] in Hb. injection Hb as <-.
    cbn [app convert_dir]. rewrite Hsvg. unfold convert_file.
    now rewrite Hr.
  - cbn [app convert_dir] in *. destruct (is_svg name).
    + destruct (convert_file rasterize name width height mode) as [wr|e'];
        [|discriminate Hb].
      destruct (convert_dir rasterize before width height mode)
        as [rest r] eqn:Hrest.
      injection Hb as <- ->. now rewrite (IH rest eq_refl).
    + now apply IH.
Qed.

Lemma convert_dir_stops_witness :
  convert_dir
    (fun name _ _ =>
       if str_eqb name (lit "a.svg") then Ok [xff; xff; xff] else Raise ValueError)
    ([lit "a.svg"; lit "notes.txt"] ++ lit "b.svg" :: [lit "c.svg"]) 1 1
    (lit "bin")
  = ([(lit "a", header (lit "P4") 1 1 ++ [x00])], Raise ValueError).
Proof.
  apply (convert_dir_stops
           (fun name _ _ =>
              if str_eqb name (lit "a.svg") then Ok [xff; xff; xff]
              else Raise ValueError)
           [lit "a.svg"; lit "notes.txt"]
           [(lit "a", header (lit "P4") 1 1 ++ [x00])]
           (lit "b.svg") [lit "c.svg"] 1 1 (lit "bin") ValueError);
    reflexivity.
Defined.

(** *** Rows *)

(** X19 — Unpacking, then packing again, clears the padding.  For a
    width of at least 1 and a buffer [b] of [n] rows of [width / 8 + 1]
    bytes, [ascii2bin(bin2ascii(b, width), width)] is a buffer of the
    same length, with zero padding bits, that [bin2ascii] unpacks to the
    same bit-string as [b]. *)
Theorem repacking_clears_padding b width n :
  1 <= width -> len b = n * (width / 8 + 1) ->
  exists s b',
    bin2ascii b width = Ok s /\ ascii2bin s width = Ok b'
    /\ len b' = len b /\ zero_padded b' width
    /\ bin2ascii b' width = Ok s.
Proof.
  intros Hw Hlen.
  destruct (bin2ascii_whole_rows_aux b width n ltac:(lia) Hlen)
    as (s & Hs & Hbits & Hls).
  destruct (blocks_exact width s ltac:(lia)) as (rows & -> & Hrows).
  { rewrite Hls. apply Z_mod_mult. }
  pose proof (proj1 (bitstring_concat rows) Hbits) as Hrb.
  destruct (ascii2bin_rows_bits rows width Hw Hrows Hrb) as (b' & Ha & Hb').
  destruct (ascii2bin_whole_rows_aux rows width Hw Hrows Hrb)
    as (b'' & Ha' & Hl & _ & Hz).
  rewrite Ha in Ha'. injection Ha' as <-.
  exists (concat rows), b'. repeat split; try assumption.
  - rewrite Hl, Hlen. f_equal.
    apply (blocks_count rows width); [lia|assumption|assumption].
  - destruct (bin2ascii_ascii2bin (concat rows) width Hw Hbits)
      as (b2 & Ha2 & Hb2).
    + rewrite Hls. apply Z_mod_mult.
    + rewrite Ha in Ha2. injection Ha2 as <-. assumption.
Qed.

Lemma repacking_clears_padding_witness :
  exists s b',
    bin2ascii [xff; x7f] 3 = Ok s /\ ascii2bin s 3 = Ok b'
    /\ len b' = len [xff; x7f] /\ zero_padded b' 3
    /\ bin2ascii b' 3 = Ok s.
Proof.
  apply (repacking_clears_padding [xff; x7f] 3 2); [lia | reflexivity].
Defined.

(** X20 — In ascii mode, for a width from 1 to 70, the lines of the body
    are the rows of the bitmap: [write_pbm] writes every row of [width]
    characters on a line of its own. *)
Theorem ascii_lines_are_rows rows width height :
  1 <= width -> width <= 70 -> Forall (fun row => len row = width) rows ->
  write_pbm (PyStr (concat rows)) width height (lit "ascii")
  = (header (lit "P1") width height
     ++ encode (concat (map (fun row => row ++ [NL]) rows)), Ok tt).
Proof.
  intros Hw H70 Hrows. rewrite write_pbm_ascii by assumption.
  rewrite Z.min_r by lia.
  rewrite <- (app_nil_r (concat rows)).
  rewrite pieces_blocks with (t := [])
    by first [assumption | unfold len; cbn [length]; lia].
  cbn [last_piece map]. rewrite app_nil_r, firstn_block by assumption.
  reflexivity.
Qed.

Lemma ascii_lines_are_rows_witness :
  write_pbm (PyStr (concat [lit "101"; lit "010"])) 3 2 (lit "ascii")
  = (header (lit "P1") 3 2
     ++ encode (concat (map (fun row => row ++ [NL]) [lit "101"; lit "010"])),
     Ok tt).
Proof.
  apply (ascii_lines_are_rows [lit "101"; lit "010"] 3 2);
    [lia | lia | repeat constructor].
Defined.
